(** * The interview backend of [app.py], embedded in Rocq

    The Flask handlers of [app.py] are embedded as functions from a request
    and a [world] to a response and the next [world].  The world holds what
    the process holds: the session store [interview_sessions], the global
    [current_session_id], the list objects that hold question lists (the
    bank and one copy per session, kept in an explicit heap so that sharing
    is visible), and the two sources the handlers consult, the wall clock
    and the random generator, as oracles with a read position.

    Request fields are typed as the handlers use them: session identifiers,
    job roles and answers are strings; a field that is missing from the
    body is [None]; the data of a request is [None] when
    [request.get_json()] returns [None], as it does for the body [null].

    reportlab is a library of the process, outside this repository.  Its
    [Paragraph] parses the text it is given as markup when it is
    constructed and raises [ValueError] on a text it cannot parse; which
    texts it accepts, and what the error says, is a function the world
    carries, [markup_error].  [doc.build] is not modelled: a report is the
    [story] that [generate_pdf_report] hands to it. *)

From Stdlib Require Import ZArith QArith String Ascii List DecimalString DecimalZ.
From Stdlib Require DecimalPos.
From stdpp Require Import gmap strings list fin_maps.

Local Open Scope Z_scope.

(** ** Python formatting *)

Module Py.

(** [str(z)], also [f"{z}"], of an int. *)
Definition str_int (z : Z) : string := NilZero.string_of_int (Z.to_int z).

(** [%0<width>d] of a non-negative int. *)
Definition zfill (width n : nat) : string :=
  let s := str_int (Z.of_nat n) in
  String.concat "" (repeat "0"%string (width - String.length s)) +:+ s.

Record datetime := {
  year : nat; month : nat; day : nat;
  hour : nat; minute : nat; second : nat; microsecond : nat
}.

(** [d.strftime('%Y%m%d_%H%M%S')] *)
Definition strftime_id (d : datetime) : string :=
  zfill 4 (year d) +:+ zfill 2 (month d) +:+ zfill 2 (day d) +:+ "_" +:+
  zfill 2 (hour d) +:+ zfill 2 (minute d) +:+ zfill 2 (second d).

(** [d.isoformat()]: the fraction is printed only when it is not zero. *)
Definition isoformat (d : datetime) : string :=
  zfill 4 (year d) +:+ "-" +:+ zfill 2 (month d) +:+ "-" +:+ zfill 2 (day d) +:+
  "T" +:+ zfill 2 (hour d) +:+ ":" +:+ zfill 2 (minute d) +:+ ":" +:+
  zfill 2 (second d) +:+
  (if Nat.eqb (microsecond d) 0 then "" else "." +:+ zfill 6 (microsecond d)).

(** The exceptions the handlers can meet, and [str(e)]. *)
Inductive exn :=
| AttributeError_NoneType_get
| IndexError
| KeyError (key : string)
| ValueError (msg : string).

Definition str_exn (e : exn) : string :=
  match e with
  | AttributeError_NoneType_get => "'NoneType' object has no attribute 'get'"
  | IndexError => "list index out of range"
  | KeyError k => "'" +:+ k +:+ "'"
  | ValueError msg => msg
  end.

End Py.

(** ** Data model *)

(** Identity of a list object. *)
Definition loc := nat.

Record metrics_t := {
  attention : Z;
  positivity : Z;
  confidence : Z
}.

Record answer_record := {
  question : string;
  answer : string;
  timestamp : string
}.

(** A session record.  [questions] is a reference to a list object; the
    answers list and the metrics dict are created by the record and never
    handed out, so they are kept by value. *)
Record session := {
  job_role : string;
  resume_filename : string;
  start_time : string;
  questions : loc;
  answers : list answer_record;
  current_question : nat;
  metrics : metrics_t
}.

(** [INTERVIEW_QUESTIONS], the literal. *)
Definition INTERVIEW_QUESTIONS : list string := [
  "Can you walk me through your experience with the technologies mentioned in your resume?";
  "Describe a challenging project you worked on and how you overcame obstacles.";
  "How do you handle working in a team environment with different personalities?"
]%string.

(** The list object the global name [INTERVIEW_QUESTIONS] is bound to. *)
Definition bank : loc := 0%nat.

Record world := {
  clock : nat -> Py.datetime;
  entropy : nat -> Z;
  clock_reads : nat;
  draws : nat;
  heap : gmap loc (list string);
  interview_sessions : gmap string session;
  current_session_id : option string;
  markup_error : string -> option string
}.

(** The process after module load. *)
Definition initial (clk : nat -> Py.datetime) (ent : nat -> Z)
    (parser : string -> option string) : world :=
  {| clock := clk; entropy := ent; clock_reads := 0; draws := 0;
     heap := {[ bank := INTERVIEW_QUESTIONS ]};
     interview_sessions := ∅;
     current_session_id := None;
     markup_error := parser |}.

(** ** Responses *)

#[local] Unset Elimination Schemes.
Inductive json :=
| JBool (b : bool)
| JInt (z : Z)
| JStr (s : string)
| JObj (fields : list (string * json)).
#[local] Set Elimination Schemes.

(** reportlab flowables, as [generate_pdf_report] constructs them. *)
Inductive para_style :=
| SampleStyle (name : string)
| ParagraphStyle (name parent : string) (fontSize spaceAfter alignment : Z).

Inductive cmd_arg :=
| Color (name : string)
| Text (s : string)
| Num (z : Z).

Record table_cmd := {
  cmd_name : string;
  cmd_start : Z * Z;
  cmd_stop : Z * Z;
  cmd_args : list cmd_arg
}.

Inductive flowable :=
| Paragraph (text : string) (style : para_style)
| Spacer (width height : Z)
| Table (data : list (list string)) (colWidths : list Z) (style : list table_cmd).

Inductive response :=
| Json (body : json) (status : Z)
| SendFile (story : list flowable) (download_name mimetype : string).

(** ** Requests *)

Record start_body := { body_job_role : option string }.

Record start_request := {
  start_json : option start_body;
  start_resume : option string
}.

Record submit_body := {
  body_session_id : option string;
  body_answer : option string
}.

Inductive request :=
| StartInterview (r : start_request)
| SubmitAnswer (data : option submit_body)
| GetReport (session_id : option string)
| GetMetrics (session_id : option string)
| Health.

(** ** The handler monad: state that survives a raised exception *)

Inductive result (A : Type) :=
| Returned (a : A)
| Raised (e : Py.exn).
Arguments Returned {A} a.
Arguments Raised {A} e.

Definition M (A : Type) : Type := world -> result A * world.

Definition ret {A} (a : A) : M A := fun w => (Returned a, w).

Definition raise {A} (e : Py.exn) : M A := fun w => (Raised e, w).

Definition bind {A B} (m : M A) (k : A -> M B) : M B :=
  fun w =>
    match m w with
    | (Returned a, w') => k a w'
    | (Raised e, w') => (Raised e, w')
    end.

Notation "'do' x <- m ; k" := (bind m (fun x => k))
  (at level 10, x name, m at level 100, k at level 200).
Notation "m ;; k" := (bind m (fun _ => k))
  (at level 100, k at level 200, right associativity).

(** [datetime.now()]: the next reading of the clock. *)
Definition read_clock (w : world) : Py.datetime * world :=
  (clock w (clock_reads w),
   {| clock := clock w; entropy := entropy w;
      clock_reads := S (clock_reads w); draws := draws w;
      heap := heap w; interview_sessions := interview_sessions w;
      current_session_id := current_session_id w;
     markup_error := markup_error w |}).

Definition now : M Py.datetime := fun w =>
  let (t, w') := read_clock w in (Returned t, w').

(** [random.randint(a, b)]: the next raw draw, brought into [a..b]. *)
Definition randint (a b : Z) : M Z := fun w =>
  (Returned (a + entropy w (draws w) mod (b - a + 1)),
   {| clock := clock w; entropy := entropy w;
      clock_reads := clock_reads w; draws := S (draws w);
      heap := heap w; interview_sessions := interview_sessions w;
      current_session_id := current_session_id w;
     markup_error := markup_error w |}).

Definition set_heap (h : gmap loc (list string)) (w : world) : world :=
  {| clock := clock w; entropy := entropy w;
     clock_reads := clock_reads w; draws := draws w;
     heap := h; interview_sessions := interview_sessions w;
     current_session_id := current_session_id w;
     markup_error := markup_error w |}.

Definition set_sessions (m : gmap string session) (w : world) : world :=
  {| clock := clock w; entropy := entropy w;
     clock_reads := clock_reads w; draws := draws w;
     heap := heap w; interview_sessions := m;
     current_session_id := current_session_id w;
     markup_error := markup_error w |}.

(** [global current_session_id; current_session_id = sid] *)
Definition set_current_session_id (sid : string) : M unit := fun w =>
  (Returned tt,
   {| clock := clock w; entropy := entropy w;
      clock_reads := clock_reads w; draws := draws w;
      heap := heap w; interview_sessions := interview_sessions w;
      current_session_id := Some sid;
     markup_error := markup_error w |}).

(** Reading the list object behind a reference.  References are made by
    [list_copy] only, so the second branch is never taken in a run of the
    process. *)
Definition deref (l : loc) : M (list string) := fun w =>
  match heap w !! l with
  | Some xs => (Returned xs, w)
  | None => (Raised (Py.KeyError "dangling"), w)
  end.

(** [xs.copy()]: a new list object with the same items. *)
Definition list_copy (l : loc) : M loc :=
  do xs <- deref l;
  fun w =>
    let l' := fresh (dom (heap w)) in
    (Returned l', set_heap (<[ l' := xs ]> (heap w)) w).

(** [xs[i]] for [i >= 0] *)
Definition getitem (l : loc) (i : nat) : M string :=
  do xs <- deref l;
  match xs !! i with
  | Some x => ret x
  | None => raise Py.IndexError
  end.

(** [len(xs)] *)
Definition len (l : loc) : M nat :=
  do xs <- deref l; ret (length xs).

(** [data.get] on what [request.get_json()] returned: [None] (the body
    [null]) has no [get]. *)
Definition get_attr {A} (data : option A) : M A :=
  match data with
  | Some d => ret d
  | None => raise Py.AttributeError_NoneType_get
  end.

(** [interview_sessions[sid]] *)
Definition load_session (sid : string) : M session := fun w =>
  match interview_sessions w !! sid with
  | Some s => (Returned s, w)
  | None => (Raised (Py.KeyError sid), w)
  end.

(** [interview_sessions[sid] = s] *)
Definition store_session (sid : string) (s : session) : M unit := fun w =>
  (Returned tt, set_sessions (<[ sid := s ]> (interview_sessions w)) w).

(** [sid in interview_sessions]; the key [None] is never in the store. *)
Definition in_sessions (sid : option string) : M bool := fun w =>
  (Returned match sid with
            | Some k =>
              match interview_sessions w !! k with
              | Some _ => true
              | None => false
              end
            | None => false
            end, w).

(** [try: ... except Exception as e: return jsonify(...), 500] *)
Definition internal_error (e : Py.exn) : response :=
  Json (JObj [("success", JBool false); ("error", JStr (Py.str_exn e))]%string) 500.

Definition try_except (body : M response) (w : world) : response * world :=
  match body w with
  | (Returned r, w') => (r, w')
  | (Raised e, w') => (internal_error e, w')
  end.

(** ** Session fields through the store

    A handler's local [session] is a reference to the dict kept in
    [interview_sessions]; reads and in-place updates go through the store. *)

Definition field {A} (sid : string) (proj : session -> A) : M A :=
  do s <- load_session sid; ret (proj s).

Definition modify_session (sid : string) (f : session -> session) : M unit :=
  do s <- load_session sid; store_session sid (f s).

(** [session['answers'].append(r)] *)
Definition append_answer (r : answer_record) (s : session) : session :=
  {| job_role := job_role s; resume_filename := resume_filename s;
     start_time := start_time s; questions := questions s;
     answers := answers s ++ [r];
     current_question := current_question s; metrics := metrics s |}.

(** [session['current_question'] += 1] *)
Definition advance (s : session) : session :=
  {| job_role := job_role s; resume_filename := resume_filename s;
     start_time := start_time s; questions := questions s;
     answers := answers s;
     current_question := S (current_question s); metrics := metrics s |}.

(** [session['metrics'] = m] *)
Definition set_metrics (m : metrics_t) (s : session) : session :=
  {| job_role := job_role s; resume_filename := resume_filename s;
     start_time := start_time s; questions := questions s;
     answers := answers s;
     current_question := current_question s; metrics := m |}.

(** The dict display with the three [random.randint(70, 95)] calls, in
    the order of its keys. *)
Definition sample_metrics : M metrics_t :=
  do a <- randint 70 95;
  do p <- randint 70 95;
  do c <- randint 70 95;
  ret {| attention := a; positivity := p; confidence := c |}.

Definition json_metrics (m : metrics_t) : json :=
  JObj [("attention", JInt (attention m));
        ("positivity", JInt (positivity m));
        ("confidence", JInt (confidence m))]%string.

Definition json_nat (n : nat) : json := JInt (Z.of_nat n).

Definition invalid_session : response :=
  Json (JObj [("success", JBool false);
              ("error", JStr "Invalid session ID")]%string) 400.

(** Truth value of a query argument: [None] and [''] are false. *)
Definition truthy (s : string) : bool :=
  match s with
  | EmptyString => false
  | String _ _ => true
  end.

(** [resume_file.filename if resume_file else 'No file uploaded']: an
    uploaded file is true when its filename is not empty. *)
Definition resume_name (resume_file : option string) : string :=
  match resume_file with
  | Some filename => if truthy filename then filename else "No file uploaded"%string
  | None => "No file uploaded"%string
  end.

(** ** POST /start_interview *)

Definition start_interview (req : start_request) : world -> response * world :=
  try_except (
    let data := start_json req in
    let resume_file := start_resume req in
    do d <- get_attr data;
    let job_role_ := default "Unknown Role"%string (body_job_role d) in
    do stamp <- now;
    do suffix <- randint 1000 9999;
    let session_id :=
      ("session_" +:+ Py.strftime_id stamp +:+ "_" +:+ Py.str_int suffix)%string in
    set_current_session_id session_id ;;
    let resume_filename_ := resume_name resume_file in
    do started <- now;
    do qs <- list_copy bank;
    do m <- sample_metrics;
    store_session session_id
      {| job_role := job_role_;
         resume_filename := resume_filename_;
         start_time := Py.isoformat started;
         questions := qs;
         answers := [];
         current_question := 0;
         metrics := m |} ;;
    do first_question <- getitem bank 0;
    do total <- len bank;
    ret (Json (JObj [("success", JBool true);
                     ("session_id", JStr session_id);
                     ("message", JStr "Interview session started successfully");
                     ("first_question", JStr first_question);
                     ("total_questions", json_nat total)]%string) 200)).

(** ** POST /submit_answer *)

Definition submit_answer (data : option submit_body) : world -> response * world :=
  try_except (
    do d <- get_attr data;
    let session_id := body_session_id d in
    let answer_text := default ""%string (body_answer d) in
    do known <- in_sessions session_id;
    match session_id with
    | Some sid =>
      if negb known then ret invalid_session else
      (* the argument of append is evaluated before the call; the unused
         [audio] field is not read here *)
      do qs <- field sid questions;
      do i <- field sid current_question;
      do q <- getitem qs i;
      do t <- now;
      modify_session sid
        (append_answer {| question := q; answer := answer_text;
                          timestamp := Py.isoformat t |}) ;;
      modify_session sid advance ;;
      do m <- sample_metrics;
      modify_session sid (set_metrics m) ;;
      do cur <- field sid current_question;
      do qs' <- field sid questions;
      do total <- len qs';
      if (total <=? cur)%nat then
        do m' <- field sid metrics;
        do given <- field sid answers;
        ret (Json (JObj [("success", JBool true);
                         ("interview_complete", JBool true);
                         ("message", JStr "Interview completed successfully");
                         ("metrics", json_metrics m');
                         ("total_questions", json_nat total);
                         ("total_answers", json_nat (length given))]%string) 200)
      else
        do next_question <- getitem qs' cur;
        do m' <- field sid metrics;
        ret (Json (JObj [("success", JBool true);
                         ("interview_complete", JBool false);
                         ("next_question", JStr next_question);
                         ("question_number", json_nat (cur + 1));
                         ("total_questions", json_nat total);
                         ("metrics", json_metrics m')]%string) 200)
    | None => ret invalid_session
    end).

(** ** GET /get_metrics *)

Definition get_metrics (session_id : option string) : world -> response * world :=
  try_except (
    do known <- in_sessions session_id;
    match session_id with
    | Some sid =>
      if negb (truthy sid) || negb known then ret invalid_session else
      do m <- field sid metrics;
      do cur <- field sid current_question;
      do qs <- field sid questions;
      do total <- len qs;
      ret (Json (JObj [("success", JBool true);
                       ("metrics", json_metrics m);
                       ("current_question", json_nat cur);
                       ("total_questions", json_nat total)]%string) 200)
    | None => ret invalid_session
    end).

(** ** GET /health *)

Definition health_check (w : world) : response * world :=
  let (t, w') := read_clock w in
  (Json (JObj [("status", JStr "healthy");
               ("timestamp", JStr (Py.isoformat t))]%string) 200, w').

(** ** The report *)

Definition inch : Z := 72.

Definition title_style : para_style :=
  ParagraphStyle "CustomTitle" "Heading1" 24 30 1.

Definition Normal : para_style := SampleStyle "Normal".
Definition Heading2 : para_style := SampleStyle "Heading2".

Definition metrics_table_style : list table_cmd := [
  {| cmd_name := "BACKGROUND"; cmd_start := (0, 0); cmd_stop := (-1, 0);
     cmd_args := [Color "grey"] |};
  {| cmd_name := "TEXTCOLOR"; cmd_start := (0, 0); cmd_stop := (-1, 0);
     cmd_args := [Color "whitesmoke"] |};
  {| cmd_name := "ALIGN"; cmd_start := (0, 0); cmd_stop := (-1, -1);
     cmd_args := [Text "CENTER"] |};
  {| cmd_name := "FONTNAME"; cmd_start := (0, 0); cmd_stop := (-1, 0);
     cmd_args := [Text "Helvetica-Bold"] |};
  {| cmd_name := "FONTSIZE"; cmd_start := (0, 0); cmd_stop := (-1, 0);
     cmd_args := [Num 14] |};
  {| cmd_name := "BOTTOMPADDING"; cmd_start := (0, 0); cmd_stop := (-1, 0);
     cmd_args := [Num 12] |};
  {| cmd_name := "BACKGROUND"; cmd_start := (0, 1); cmd_stop := (-1, -1);
     cmd_args := [Color "beige"] |};
  {| cmd_name := "GRID"; cmd_start := (0, 0); cmd_stop := (-1, -1);
     cmd_args := [Num 1; Color "black"] |}
]%string.

(** [metrics_table_data] *)
Definition metrics_table_data (m : metrics_t) : list (list string) := [
  ["Metric"; "Score"];
  ["Attention"; Py.str_int (attention m) +:+ "%"];
  ["Positivity"; Py.str_int (positivity m) +:+ "%"];
  ["Confidence"; Py.str_int (confidence m) +:+ "%"]
]%string.

(** [Paragraph(text, style)]: the constructor parses [text] as markup and
    raises [ValueError] when it cannot. *)
Definition new_Paragraph (text : string) (style : para_style) : M flowable :=
  fun w =>
    match markup_error w text with
    | None => (Returned (Paragraph text style), w)
    | Some msg => (Raised (Py.ValueError msg), w)
    end.

(** [story.append(f)], where constructing [f] can raise. *)
Definition story_append (story : list flowable) (f : M flowable)
  : M (list flowable) :=
  do x <- f; ret (story ++ [x]).

(** [for i, qa in enumerate(session['answers'], 1): ...], appending to
    [story]; [i] is the number of the next pair. *)
Fixpoint qa_loop (i : nat) (given : list answer_record) (story : list flowable)
  : M (list flowable) :=
  match given with
  | [] => ret story
  | qa :: rest =>
    do story1 <- story_append story
                   (new_Paragraph ("<b>Question " +:+ Py.str_int (Z.of_nat i)
                                   +:+ ":</b> " +:+ question qa) Normal);
    do story2 <- story_append story1
                   (new_Paragraph ("<b>Answer:</b> " +:+ answer qa) Normal);
    let story3 := story2 ++ [Spacer 1 12] in
    qa_loop (S i) rest story3
  end.

(** [avg_score]: the quotient of an int by 3.  Python computes it as a
    correctly rounded float; the thresholds it is compared with are
    integers, which floats represent exactly, and rounding is monotone, so
    the comparisons agree with those of the exact quotient taken here. *)
Definition avg_score (m : metrics_t) : Q :=
  (inject_Z (attention m + positivity m + confidence m) / 3)%Q.

Definition excellent : string :=
  "Excellent performance! The candidate demonstrated strong communication skills and relevant experience.".
Definition good : string :=
  "Good performance! The candidate showed solid understanding and relevant experience.".
Definition fair : string :=
  "Fair performance. The candidate has potential but could benefit from more practice.".
Definition needs_improvement : string :=
  "Needs improvement. The candidate should focus on providing more detailed and specific examples.".

(** The [if avg_score >= 90: ... elif ... else ...] chain. *)
Definition assessment_of (avg : Q) : string :=
  if Qle_bool 90 avg then excellent
  else if Qle_bool 80 avg then good
  else if Qle_bool 70 avg then fair
  else needs_improvement.

Definition generate_pdf_report (s : session) : M (list flowable) :=
  let story := [] in
  do story <- story_append story (new_Paragraph "AI Interview Report" title_style);
  let story := story ++ [Spacer 1 20] in
  do story <- story_append story
                (new_Paragraph ("<b>Job Role:</b> " +:+ job_role s) Normal);
  do story <- story_append story
                (new_Paragraph ("<b>Resume:</b> " +:+ resume_filename s) Normal);
  do story <- story_append story
                (new_Paragraph ("<b>Interview Date:</b> "
                                +:+ substring 0 10 (start_time s)) Normal);
  let story := story ++ [Spacer 1 20] in
  do story <- story_append story
                (new_Paragraph "<b>Performance Metrics:</b>" Heading2);
  let metrics_table :=
    Table (metrics_table_data (metrics s)) [2 * inch; 1 * inch] metrics_table_style in
  let story := story ++ [metrics_table] in
  let story := story ++ [Spacer 1 20] in
  do story <- story_append story
                (new_Paragraph "<b>Interview Questions & Answers:</b>" Heading2);
  do story <- qa_loop 1 (answers s) story;
  do story <- story_append story
                (new_Paragraph "<b>Overall Assessment:</b>" Heading2);
  let assessment := assessment_of (avg_score (metrics s)) in
  do story <- story_append story (new_Paragraph assessment Normal);
  ret story.

(** ** GET /get_report *)

Definition get_report (session_id : option string) : world -> response * world :=
  try_except (
    do known <- in_sessions session_id;
    match session_id with
    | Some sid =>
      if negb (truthy sid) || negb known then ret invalid_session else
      do s <- load_session sid;
      do pdf_buffer <- generate_pdf_report s;
      ret (SendFile pdf_buffer
             ("interview_report_" +:+ sid +:+ ".pdf")
             "application/pdf")
    | None => ret invalid_session
    end).

(** ** The process: any sequence of requests *)

Definition handle (r : request) (w : world) : response * world :=
  match r with
  | StartInterview req => start_interview req w
  | SubmitAnswer data => submit_answer data w
  | GetReport sid => get_report sid w
  | GetMetrics sid => get_metrics sid w
  | Health => health_check w
  end.

Inductive reachable : world -> Prop :=
| reachable_initial clk ent parser : reachable (initial clk ent parser)
| reachable_handle r w : reachable w -> reachable (handle r w).2.

(** Running a list of requests, collecting the responses. *)
Fixpoint run (rs : list request) (w : world) : list response * world :=
  match rs with
  | [] => ([], w)
  | r :: rest =>
    let (resp, w1) := handle r w in
    let (resps, w2) := run rest w1 in
    (resp :: resps, w2)
  end.

(** ** What the theorems speak about *)

(** The metrics the next three draws give. *)
Definition sampled (w : world) : metrics_t :=
  {| attention := 70 + entropy w (draws w) mod 26;
     positivity := 70 + entropy w (S (draws w)) mod 26;
     confidence := 70 + entropy w (S (S (draws w))) mod 26 |}.

Definition in_range (m : metrics_t) : Prop :=
  (70 <= attention m <= 95) ∧ (70 <= positivity m <= 95) ∧
  (70 <= confidence m <= 95).

(** A field of a JSON object body. *)
Fixpoint assoc (k : string) (fields : list (string * json)) : option json :=
  match fields with
  | [] => None
  | (k', v) :: rest => if String.eqb k k' then Some v else assoc k rest
  end.

Definition body_field (k : string) (r : response) : option json :=
  match r with
  | Json (JObj fields) _ => assoc k fields
  | _ => None
  end.

Definition status_of (r : response) : option Z :=
  match r with
  | Json _ st => Some st
  | SendFile _ _ _ => None
  end.

(** The world after [n] clock readings and [k] draws, with the store [m]. *)
Definition advanced (n k : nat) (m : gmap string session) (w : world) : world :=
  {| clock := clock w; entropy := entropy w;
     clock_reads := n + clock_reads w; draws := k + draws w;
     heap := heap w; interview_sessions := m;
     current_session_id := current_session_id w;
     markup_error := markup_error w |}.

(** The record [submit_answer] leaves for a session [s] that was asked [q]. *)
Definition answered (w : world) (s : session) (q a : string) : session :=
  {| job_role := job_role s; resume_filename := resume_filename s;
     start_time := start_time s; questions := questions s;
     answers := answers s ++
       [{| question := q; answer := a;
           timestamp := Py.isoformat (clock w (clock_reads w)) |}];
     current_question := S (current_question s);
     metrics := sampled w |}.

Definition submit (sid : string) (a : option string) : request :=
  SubmitAnswer (Some {| body_session_id := Some sid; body_answer := a |}).

(** The identifier [start_interview] makes in [w]. *)
Definition new_session_id (w : world) : string :=
  ("session_" +:+ Py.strftime_id (clock w (clock_reads w)) +:+ "_" +:+
   Py.str_int (1000 + entropy w (draws w) mod 9000))%string.

(** The record [start_interview] stores in [w]. *)
Definition created (w : world) (d : start_body) (resume : option string) : session :=
  {| job_role := default "Unknown Role"%string (body_job_role d);
     resume_filename := resume_name resume;
     start_time := Py.isoformat (clock w (S (clock_reads w)));
     questions := fresh (dom (heap w));
     answers := [];
     current_question := 0;
     metrics := sampled (advanced 0 1 (interview_sessions w) w) |}.

(** The world [start_interview] leaves, the bank holding [b]. *)
Definition after_start (w : world) (d : start_body) (resume : option string)
    (b : list string) : world :=
  {| clock := clock w; entropy := entropy w;
     clock_reads := 2 + clock_reads w; draws := 4 + draws w;
     heap := <[ fresh (dom (heap w)) := b ]> (heap w);
     interview_sessions :=
       <[ new_session_id w := created w d resume ]> (interview_sessions w);
     current_session_id := Some (new_session_id w);
     markup_error := markup_error w |}.

(** ** The invariant of the process *)

Record session_ok (w : world) (s : session) : Prop := {
  ok_answers : length (answers s) = current_question s;
  ok_questions : heap w !! questions s = Some INTERVIEW_QUESTIONS;
  ok_own : questions s <> bank;
  ok_cursor : (current_question s <= length INTERVIEW_QUESTIONS)%nat;
  ok_metrics : in_range (metrics s)
}.

Record world_ok (w : world) : Prop := {
  ok_bank : heap w !! bank = Some INTERVIEW_QUESTIONS;
  ok_sessions : forall sid s,
    interview_sessions w !! sid = Some s -> session_ok w s;
  ok_separate : forall a b sa sb,
    a <> b ->
    interview_sessions w !! a = Some sa ->
    interview_sessions w !! b = Some sb ->
    questions sa <> questions sb
}.

(** ** Reading a story back *)

(** [s] without the prefix [p], when it starts with it. *)
Fixpoint strip_prefix (p s : string) : option string :=
  match p, s with
  | EmptyString, _ => Some s
  | String c p', String c' s' =>
    if Ascii.eqb c c' then strip_prefix p' s' else None
  | String _ _, EmptyString => None
  end.

Definition is_digit (c : ascii) : bool :=
  (48 <=? nat_of_ascii c)%nat && (nat_of_ascii c <=? 57)%nat.

(** The leading decimal digits of [s], and what follows them. *)
Fixpoint split_digits (s : string) : string * string :=
  match s with
  | EmptyString => (EmptyString, EmptyString)
  | String c s' =>
    if is_digit c then
      let (ds, r) := split_digits s' in (String c ds, r)
    else (EmptyString, s)
  end.

(** The number and the text of a ["<b>Question n:</b> text"] line. *)
Definition question_label (t : string) : option (string * string) :=
  match strip_prefix "<b>Question " t with
  | Some r =>
    let (n, r') := split_digits r in
    match strip_prefix ":</b> " r' with
    | Some q => Some (n, q)
    | None => None
    end
  | None => None
  end.

(** The text of an ["<b>Answer:</b> text"] line. *)
Definition answer_label (t : string) : option string :=
  strip_prefix "<b>Answer:</b> " t.

(** The question/answer pairs of a story, in the order they appear: a
    question line immediately followed by an answer line. *)
Fixpoint qa_pairs (story : list flowable) : list (string * string * string) :=
  match story with
  | [] => []
  | f :: rest =>
    match f, rest with
    | Paragraph t1 _, Paragraph t2 _ :: _ =>
      match question_label t1, answer_label t2 with
      | Some (n, q), Some a => (n, q, a) :: qa_pairs rest
      | _, _ => qa_pairs rest
      end
    | _, _ => qa_pairs rest
    end
  end.


(** The last paragraph's text, when the story ends with a paragraph. *)
Definition closing_sentence (story : list flowable) : option string :=
  match last story with
  | Some (Paragraph t _) => Some t
  | _ => None
  end.


Definition report_head (s : session) : list flowable := [
  Paragraph "AI Interview Report" title_style;
  Spacer 1 20;
  Paragraph ("<b>Job Role:</b> " +:+ job_role s) Normal;
  Paragraph ("<b>Resume:</b> " +:+ resume_filename s) Normal;
  Paragraph ("<b>Interview Date:</b> " +:+ substring 0 10 (start_time s)) Normal;
  Spacer 1 20;
  Paragraph "<b>Performance Metrics:</b>" Heading2;
  Table (metrics_table_data (metrics s)) [2 * inch; 1 * inch] metrics_table_style;
  Spacer 1 20;
  Paragraph "<b>Interview Questions & Answers:</b>" Heading2
]%string.

Definition report_tail (s : session) : list flowable := [
  Paragraph "<b>Overall Assessment:</b>" Heading2;
  Paragraph (assessment_of (avg_score (metrics s))) Normal
]%string.

(** The question/answer lines of a story, numbered from [i]. *)
Fixpoint qa_blocks (i : nat) (given : list answer_record) : list flowable :=
  match given with
  | [] => []
  | qa :: rest =>
    Paragraph ("<b>Question " +:+ Py.str_int (Z.of_nat i)
               +:+ ":</b> " +:+ question qa) Normal ::
    Paragraph ("<b>Answer:</b> " +:+ answer qa) Normal ::
    Spacer 1 12 :: qa_blocks (S i) rest
  end.

(** The story of a session's report: what [generate_pdf_report] returns
    when it returns. *)
Definition report_story (s : session) : list flowable :=
  report_head s ++ qa_blocks 1 (answers s) ++ report_tail s.

(** The error of the first paragraph of a story whose text the parser of
    [w] does not accept. *)
Fixpoint first_rejected (w : world) (story : list flowable) : option string :=
  match story with
  | [] => None
  | Paragraph t _ :: rest =>
    match markup_error w t with
    | Some msg => Some msg
    | None => first_rejected w rest
    end
  | _ :: rest => first_rejected w rest
  end.



(** A paragraph parser for the scenarios.  It accepts a text whose [<b>]
    tags are each closed by a [</b>], and rejects a text that ends inside
    one or closes one that is not open. *)
Fixpoint unclosed_bold (depth : nat) (s : string) : option string :=
  match s with
  | EmptyString =>
    match depth with
    | O => None
    | S _ => Some "parse ended with unclosed tags"%string
    end
  | String _ rest =>
    if String.prefix "<b>" s then unclosed_bold (S depth) rest
    else if String.prefix "</b>" s then
      match depth with
      | O => Some "closing tag without an opening one"%string
      | S d => unclosed_bold d rest
      end
    else unclosed_bold depth rest
  end.

Definition scenario_markup (text : string) : option string := unclosed_bold 0 text.


(** An in-place change of the list object [l], leaving it with [items]. *)
Definition mutate (l : loc) (items : list string) (w : world) : world :=
  set_heap (<[ l := items ]> (heap w)) w.

(** The items of the questions list of session [sid]. *)
Definition questions_of (w : world) (sid : string) : option (list string) :=
  match interview_sessions w !! sid with
  | Some s => heap w !! questions s
  | None => None
  end.

(** The scenario of the specification: a backend engineer, no resume. *)
Definition scenario_clock (n : nat) : Py.datetime :=
  {| Py.year := 2024; Py.month := 5; Py.day := 17;
     Py.hour := 9; Py.minute := 30; Py.second := n; Py.microsecond := 0 |}.

Definition scenario_entropy (n : nat) : Z := Z.of_nat n * 7.

Definition scenario_start : request :=
  StartInterview {| start_json := Some {| body_job_role := Some "Backend Engineer"%string |};
                    start_resume := None |}.

Definition scenario_sid : string := "session_20240517_093000_1000".

Definition scenario_begun : world :=
  (handle scenario_start (initial scenario_clock scenario_entropy scenario_markup)).2.

Definition scenario_done : world :=
  (run [submit scenario_sid (Some "I have 5 years of experience"%string);
        submit scenario_sid (Some "second"%string);
        submit scenario_sid (Some "third"%string)] scenario_begun).2.

(** The scenario with a first answer that opens a bold tag and does not
    close it. *)
Definition scenario_bold : world :=
  (run [submit scenario_sid (Some "I used <b>bold"%string)] scenario_begun).2.

(** ** What the further properties speak about *)

(** [w] with its global [current_session_id] set to [c]. *)
Definition with_current_session_id (c : option string) (w : world) : world :=
  {| clock := clock w; entropy := entropy w;
     clock_reads := clock_reads w; draws := draws w;
     heap := heap w; interview_sessions := interview_sessions w;
     current_session_id := c;
     markup_error := markup_error w |}.

(** What one request does to the state of a process that satisfies the
    invariant. *)
Inductive effect (w : world) : request -> world -> Prop :=
| effect_none r : effect w r w
| effect_health : effect w Health (advanced 1 0 (interview_sessions w) w)
| effect_start d resume :
    effect w (StartInterview {| start_json := Some d; start_resume := resume |})
           (after_start w d resume INTERVIEW_QUESTIONS)
| effect_submit sid a s q :
    interview_sessions w !! sid = Some s ->
    INTERVIEW_QUESTIONS !! current_question s = Some q ->
    effect w (submit sid a)
           (advanced 1 3 (<[ sid := answered w s q (default ""%string a) ]>
                            (interview_sessions w)) w).

(** The fields of a [datetime] object are within these ranges. *)
Definition valid_datetime (d : Py.datetime) : Prop :=
  1 <= Z.of_nat (Py.year d) <= 9999 /\ 1 <= Z.of_nat (Py.month d) <= 12 /\
  1 <= Z.of_nat (Py.day d) <= 31 /\ Z.of_nat (Py.hour d) < 24 /\
  Z.of_nat (Py.minute d) < 60 /\ Z.of_nat (Py.second d) < 60 /\
  Z.of_nat (Py.microsecond d) < 1000000.

(** The calendar date, [YYYY-MM-DD]. *)
Definition isodate (d : Py.datetime) : string :=
  Py.zfill 4 (Py.year d) +:+ "-" +:+ Py.zfill 2 (Py.month d) +:+ "-" +:+
  Py.zfill 2 (Py.day d).

(** A clock that stands still and a generator that always draws 0. *)
Definition still_clock (n : nat) : Py.datetime :=
  {| Py.year := 2024; Py.month := 5; Py.day := 17;
     Py.hour := 9; Py.minute := 30; Py.second := 0; Py.microsecond := 0 |}.

Definition zero_entropy (n : nat) : Z := 0.

(** ** Evaluation lemmas for the monad *)

Section Steps.
Context {A B : Type}.
Implicit Types (k : A -> M B) (w : world).

Lemma bind_ret (a : A) k w : bind (ret a) k w = k a w.
Proof. reflexivity. Qed.

Lemma bind_raise e k w : bind (raise e) k w = (Raised e, w).
Proof. reflexivity. Qed.

Lemma bind_field sid (proj : session -> A) k w s :
  interview_sessions w !! sid = Some s ->
  bind (field sid proj) k w = k (proj s) w.
Proof.
  intros H. unfold field, bind, load_session. rewrite H. reflexivity.
Qed.

End Steps.

Lemma bind_now {B} (k : Py.datetime -> M B) w :
  bind now k w = k (clock w (clock_reads w)) (advanced 1 0 (interview_sessions w) w).
Proof. reflexivity. Qed.

Lemma bind_modify {B} sid f (k : unit -> M B) w s :
  interview_sessions w !! sid = Some s ->
  bind (modify_session sid f) k w =
  k tt (set_sessions (<[ sid := f s ]> (interview_sessions w)) w).
Proof.
  intros H. unfold modify_session, bind, load_session. rewrite H. reflexivity.
Qed.

Lemma bind_getitem {B} l i (k : string -> M B) w xs x :
  heap w !! l = Some xs -> xs !! i = Some x ->
  bind (getitem l i) k w = k x w.
Proof.
  intros H1 H2. unfold getitem, bind, deref. rewrite H1, H2. reflexivity.
Qed.

Lemma bind_getitem_out {B} l i (k : string -> M B) w xs :
  heap w !! l = Some xs -> xs !! i = None ->
  bind (getitem l i) k w = (Raised Py.IndexError, w).
Proof.
  intros H1 H2. unfold getitem, bind, deref. rewrite H1, H2. reflexivity.
Qed.

Lemma bind_len {B} l (k : nat -> M B) w xs :
  heap w !! l = Some xs -> bind (len l) k w = k (length xs) w.
Proof.
  intros H. unfold len, bind, deref. rewrite H. reflexivity.
Qed.

Lemma bind_sample_metrics {B} (k : metrics_t -> M B) w :
  bind sample_metrics k w = k (sampled w) (advanced 0 3 (interview_sessions w) w).
Proof. reflexivity. Qed.

Lemma sampled_in_range w : in_range (sampled w).
Proof.
  unfold in_range, sampled; simpl.
  pose proof (Z.mod_pos_bound (entropy w (draws w)) 26).
  pose proof (Z.mod_pos_bound (entropy w (S (draws w))) 26).
  pose proof (Z.mod_pos_bound (entropy w (S (S (draws w)))) 26).
  lia.
Qed.

(** ** The report, part by part *)

Lemma bind_assoc {A B C} (m : M A) (f : A -> M B) (k : B -> M C) w :
  bind (bind m f) k w = bind m (fun x => bind (f x) k) w.
Proof. unfold bind. destruct (m w) as [[a|e] w']; reflexivity. Qed.

Lemma bind_story_append {B} story t st (k : list flowable -> M B) w :
  bind (story_append story (new_Paragraph t st)) k w =
  match markup_error w t with
  | None => k (story ++ [Paragraph t st]) w
  | Some msg => (Raised (Py.ValueError msg), w)
  end.
Proof.
  unfold story_append, new_Paragraph, bind.
  destruct (markup_error w t); reflexivity.
Qed.

Lemma first_rejected_app w a b :
  first_rejected w (a ++ b) =
  match first_rejected w a with
  | Some msg => Some msg
  | None => first_rejected w b
  end.
Proof.
  induction a as [|[t st| |] a IH]; simpl.
  - reflexivity.
  - destruct (markup_error w t); [reflexivity|exact IH].
  - exact IH.
  - exact IH.
Qed.

Lemma first_rejected_same w w' story :
  markup_error w' = markup_error w ->
  first_rejected w' story = first_rejected w story.
Proof.
  intros E. induction story as [|[t st| |] story IH]; simpl.
  - reflexivity.
  - rewrite E, IH. reflexivity.
  - exact IH.
  - exact IH.
Qed.

Lemma qa_loop_spec {B} given : forall i story (k : list flowable -> M B) w,
  bind (qa_loop i given story) k w =
  match first_rejected w (qa_blocks i given) with
  | None => k (story ++ qa_blocks i given) w
  | Some msg => (Raised (Py.ValueError msg), w)
  end.
Proof.
  induction given as [|qa rest IH]; intros i story k w.
  - simpl. rewrite app_nil_r. reflexivity.
  - cbn [qa_loop qa_blocks first_rejected].
    rewrite bind_assoc, bind_story_append.
    destruct (markup_error w _) as [msg|]; [reflexivity|].
    rewrite bind_assoc, bind_story_append.
    destruct (markup_error w _) as [msg|]; [reflexivity|].
    cbv zeta. rewrite IH.
    destruct (first_rejected w (qa_blocks (S i) rest)); [reflexivity|].
    rewrite <- !app_assoc. reflexivity.
Qed.

Lemma generate_pdf_report_spec s w :
  generate_pdf_report s w =
  match first_rejected w (report_story s) with
  | None => (Returned (report_story s), w)
  | Some msg => (Raised (Py.ValueError msg), w)
  end.
Proof.
  unfold generate_pdf_report, report_story, report_head, report_tail. cbv zeta.
  cbn [app first_rejected].
  repeat (rewrite bind_story_append;
          destruct (markup_error w _) as [msg|]; [reflexivity|]).
  rewrite qa_loop_spec, first_rejected_app.
  destruct (first_rejected w (qa_blocks 1 (answers s))); [reflexivity|].
  cbn [first_rejected].
  repeat (rewrite bind_story_append;
          destruct (markup_error w _) as [msg|]; [reflexivity|]).
  unfold ret. rewrite <- !app_assoc. reflexivity.
Qed.

Lemma generate_pdf_report_returns s w story :
  (generate_pdf_report s w).1 = Returned story -> story = report_story s.
Proof.
  rewrite generate_pdf_report_spec.
  destruct (first_rejected w (report_story s)); simpl; congruence.
Qed.

Lemma bind_generate_pdf_report {B} s (k : list flowable -> M B) w :
  bind (generate_pdf_report s) k w =
  match first_rejected w (report_story s) with
  | None => k (report_story s) w
  | Some msg => (Raised (Py.ValueError msg), w)
  end.
Proof.
  unfold bind. rewrite generate_pdf_report_spec.
  destruct (first_rejected w (report_story s)); reflexivity.
Qed.













Lemma closing_sentence_report s :
  closing_sentence (report_story s) = Some (assessment_of (avg_score (metrics s))).
Proof.
  unfold report_story, closing_sentence, report_tail.
  rewrite !app_assoc.
  change ([?a; ?b]) with ([a] ++ [b]). rewrite app_assoc, last_snoc. reflexivity.
Qed.


(** ** The handlers, case by case *)

Lemma submit_answer_no_body w :
  submit_answer None w = (internal_error Py.AttributeError_NoneType_get, w).
Proof. reflexivity. Qed.

Lemma submit_answer_no_id a w :
  submit_answer (Some {| body_session_id := None; body_answer := a |}) w =
  (invalid_session, w).
Proof. reflexivity. Qed.

Lemma submit_answer_unknown sid a w :
  interview_sessions w !! sid = None ->
  handle (submit sid a) w = (invalid_session, w).
Proof.
  intros H. simpl. unfold submit_answer, try_except, bind, in_sessions; simpl.
  rewrite H. reflexivity.
Qed.

Lemma submit_answer_past_end sid a w s qs :
  interview_sessions w !! sid = Some s ->
  heap w !! questions s = Some qs ->
  (length qs <= current_question s)%nat ->
  handle (submit sid a) w = (internal_error Py.IndexError, w).
Proof.
  intros Hs Hq Hle. simpl. unfold submit_answer, try_except.
  simpl get_attr. rewrite bind_ret. cbv beta zeta. simpl body_session_id.
  unfold bind at 1, in_sessions. rewrite Hs. cbn [negb].
  rewrite (bind_field _ _ _ _ _ Hs), (bind_field _ _ _ _ _ Hs).
  rewrite (bind_getitem_out _ _ _ _ _ Hq); [reflexivity|].
  apply lookup_ge_None. lia.
Qed.

Lemma submit_answer_accept sid a w s qs q :
  interview_sessions w !! sid = Some s ->
  heap w !! questions s = Some qs ->
  qs !! current_question s = Some q ->
  handle (submit sid a) w =
  (let s' := answered w s q (default ""%string a) in
   let total := length qs in
   if (total <=? S (current_question s))%nat then
     Json (JObj [("success", JBool true);
                 ("interview_complete", JBool true);
                 ("message", JStr "Interview completed successfully");
                 ("metrics", json_metrics (sampled w));
                 ("total_questions", json_nat total);
                 ("total_answers", json_nat (length (answers s')))]%string) 200
   else
     match qs !! S (current_question s) with
     | Some next_question =>
       Json (JObj [("success", JBool true);
                   ("interview_complete", JBool false);
                   ("next_question", JStr next_question);
                   ("question_number", json_nat (S (current_question s) + 1));
                   ("total_questions", json_nat total);
                   ("metrics", json_metrics (sampled w))]%string) 200
     | None => internal_error Py.IndexError
     end,
   advanced 1 3 (<[ sid := answered w s q (default ""%string a) ]> (interview_sessions w)) w).
Proof.
  intros Hs Hq Hi. simpl handle. unfold submit_answer, try_except.
  simpl get_attr. rewrite bind_ret. cbv beta zeta. simpl body_session_id. simpl body_answer.
  unfold bind at 1, in_sessions. rewrite Hs. cbn [negb].
  rewrite (bind_field _ _ _ _ _ Hs), (bind_field _ _ _ _ _ Hs).
  rewrite (bind_getitem _ _ _ _ _ _ Hq Hi).
  rewrite bind_now.
  erewrite bind_modify by (simpl; exact Hs).
  erewrite bind_modify by (simpl; apply lookup_insert_eq).
  rewrite bind_sample_metrics.
  erewrite bind_modify by (simpl; apply lookup_insert_eq).
  cbn [set_sessions advanced interview_sessions]. rewrite !insert_insert_eq.
  match goal with
  | |- (let (_, _) := _ ?W in _) = _ =>
    change W with (advanced 1 3 (<[ sid := answered w s q (default ""%string a) ]>
                                   (interview_sessions w)) w)
  end.
  set (w' := advanced 1 3 _ w).
  assert (Hs' : interview_sessions w' !! sid = Some (answered w s q (default ""%string a)))
    by apply lookup_insert_eq.
  assert (Hq' : heap w' !! questions (answered w s q (default ""%string a)) = Some qs)
    by exact Hq.
  rewrite (bind_field _ _ _ _ _ Hs'), (bind_field _ _ _ _ _ Hs').
  rewrite (bind_len _ _ _ _ Hq').
  cbn [current_question answered].
  destruct (length qs <=? S (current_question s))%nat eqn:Hcmp.
  - rewrite (bind_field _ _ _ _ _ Hs'), (bind_field _ _ _ _ _ Hs'). reflexivity.
  - destruct (qs !! S (current_question s)) as [nq|] eqn:Hn.
    + rewrite (bind_getitem _ _ _ _ _ _ Hq' Hn).
      rewrite (bind_field _ _ _ _ _ Hs'). reflexivity.
    + rewrite (bind_getitem_out _ _ _ _ _ Hq' Hn). reflexivity.
Qed.

Lemma fresh_loc_unused (h : gmap loc (list string)) : h !! fresh (dom h) = None.
Proof. apply not_elem_of_dom, is_fresh. Qed.

Lemma bind_randint {B} a b (k : Z -> M B) w :
  bind (randint a b) k w =
  k (a + entropy w (draws w) mod (b - a + 1)) (advanced 0 1 (interview_sessions w) w).
Proof. reflexivity. Qed.

Lemma bind_set_current {B} sid (k : unit -> M B) w :
  bind (set_current_session_id sid) k w =
  k tt {| clock := clock w; entropy := entropy w;
          clock_reads := clock_reads w; draws := draws w;
          heap := heap w; interview_sessions := interview_sessions w;
          current_session_id := Some sid;
     markup_error := markup_error w |}.
Proof. reflexivity. Qed.

Lemma bind_list_copy {B} l (k : loc -> M B) w xs :
  heap w !! l = Some xs ->
  bind (list_copy l) k w =
  k (fresh (dom (heap w))) (set_heap (<[ fresh (dom (heap w)) := xs ]> (heap w)) w).
Proof.
  intros H. unfold list_copy, bind, deref. rewrite H. reflexivity.
Qed.

Lemma bind_store {B} sid s (k : unit -> M B) w :
  bind (store_session sid s) k w =
  k tt (set_sessions (<[ sid := s ]> (interview_sessions w)) w).
Proof. reflexivity. Qed.

Lemma start_interview_no_body resume w :
  handle (StartInterview {| start_json := None; start_resume := resume |}) w =
  (internal_error Py.AttributeError_NoneType_get, w).
Proof. reflexivity. Qed.

Lemma start_interview_ok d resume w b :
  heap w !! bank = Some b ->
  handle (StartInterview {| start_json := Some d; start_resume := resume |}) w =
  (match b !! 0%nat with
   | Some first_question =>
     Json (JObj [("success", JBool true);
                 ("session_id", JStr (new_session_id w));
                 ("message", JStr "Interview session started successfully");
                 ("first_question", JStr first_question);
                 ("total_questions", json_nat (length b))]%string) 200
   | None => internal_error Py.IndexError
   end,
   after_start w d resume b).
Proof.
  intros Hb.
  assert (Hne : fresh (dom (heap w)) <> bank).
  { intros E. pose proof (fresh_loc_unused (heap w)) as F. rewrite E in F. congruence. }
  simpl handle. unfold start_interview, try_except. cbn [start_json start_resume get_attr].
  rewrite bind_ret, bind_now, bind_randint, bind_set_current, bind_now.
  erewrite bind_list_copy by exact Hb.
  rewrite bind_sample_metrics, bind_store.
  match goal with
  | |- (let (_, _) := _ ?W in _) = _ =>
    change W with (after_start w d resume b)
  end.
  assert (Hb' : heap (after_start w d resume b) !! bank = Some b).
  { cbn [heap after_start]. rewrite lookup_insert_ne by exact Hne. exact Hb. }
  destruct (b !! 0%nat) as [q0|] eqn:H0.
  - rewrite (bind_getitem _ _ _ _ _ _ Hb' H0), (bind_len _ _ _ _ Hb'). reflexivity.
  - rewrite (bind_getitem_out _ _ _ _ _ Hb' H0). reflexivity.
Qed.

Lemma get_metrics_unknown sid w :
  interview_sessions w !! sid = None ->
  handle (GetMetrics (Some sid)) w = (invalid_session, w).
Proof.
  intros H. simpl handle. unfold get_metrics, try_except, bind, in_sessions.
  rewrite H. destruct (truthy sid); reflexivity.
Qed.

Lemma get_report_unknown sid w :
  interview_sessions w !! sid = None ->
  handle (GetReport (Some sid)) w = (invalid_session, w).
Proof.
  intros H. simpl handle. unfold get_report, try_except, bind, in_sessions.
  rewrite H. destruct (truthy sid); reflexivity.
Qed.

Lemma get_metrics_ok sid w s qs :
  interview_sessions w !! sid = Some s ->
  heap w !! questions s = Some qs ->
  sid <> ""%string ->
  handle (GetMetrics (Some sid)) w =
  (Json (JObj [("success", JBool true);
               ("metrics", json_metrics (metrics s));
               ("current_question", json_nat (current_question s));
               ("total_questions", json_nat (length qs))]%string) 200, w).
Proof.
  intros Hs Hq Hne. simpl handle.
  unfold get_metrics, try_except. unfold bind at 1, in_sessions. rewrite Hs.
  destruct sid; [congruence|]. cbn [truthy negb orb].
  rewrite !(bind_field _ _ _ _ _ Hs), (bind_len _ _ _ _ Hq). reflexivity.
Qed.

Lemma get_report_ok sid w s :
  interview_sessions w !! sid = Some s ->
  sid <> ""%string ->
  handle (GetReport (Some sid)) w =
  (match first_rejected w (report_story s) with
   | None => SendFile (report_story s) ("interview_report_" +:+ sid +:+ ".pdf")
                      "application/pdf"
   | Some msg => internal_error (Py.ValueError msg)
   end, w).
Proof.
  intros Hs Hne. simpl handle.
  unfold get_report, try_except. unfold bind at 1, in_sessions. rewrite Hs.
  destruct sid; [congruence|]. cbn [truthy negb orb].
  unfold bind at 1, load_session. rewrite Hs.
  rewrite bind_generate_pdf_report.
  destruct (first_rejected w (report_story s)); reflexivity.
Qed.

Lemma get_metrics_world sid w : (handle (GetMetrics sid) w).2 = w.
Proof.
  destruct sid as [sid|]; [|reflexivity].
  destruct (interview_sessions w !! sid) as [s|] eqn:Hs.
  - simpl handle. unfold get_metrics, try_except.
    unfold bind at 1, in_sessions. rewrite Hs.
    destruct (truthy sid); cbn [negb orb]; [|reflexivity].
    rewrite !(bind_field _ _ _ _ _ Hs).
    destruct (heap w !! questions s) as [qs|] eqn:Hq.
    + rewrite (bind_len _ _ _ _ Hq). reflexivity.
    + unfold bind, len, bind, deref. rewrite Hq. reflexivity.
  - rewrite get_metrics_unknown by exact Hs. reflexivity.
Qed.

Lemma get_report_world sid w : (handle (GetReport sid) w).2 = w.
Proof.
  destruct sid as [sid|]; [|reflexivity].
  destruct (interview_sessions w !! sid) as [s|] eqn:Hs.
  - destruct (string_dec sid "") as [->|Hne]; [reflexivity|].
    rewrite (get_report_ok sid w s Hs Hne). reflexivity.
  - rewrite get_report_unknown by exact Hs. reflexivity.
Qed.

(** ** The invariant holds in every reachable state *)

Lemma world_ok_same w w' :
  heap w' = heap w -> interview_sessions w' = interview_sessions w ->
  world_ok w -> world_ok w'.
Proof.
  intros Hh Hm [Hb Hs Hd]. split.
  - rewrite Hh. exact Hb.
  - intros sid s H. rewrite Hm in H. destruct (Hs _ _ H).
    split; try assumption. rewrite Hh. assumption.
  - intros a b sa sb Hab Ha Hb'. rewrite Hm in Ha, Hb'. eauto.
Qed.

Lemma world_ok_initial clk ent parser : world_ok (initial clk ent parser).
Proof.
  split.
  - reflexivity.
  - intros sid s H. simpl in H. rewrite lookup_empty in H. discriminate.
  - intros a b sa sb _ H0. simpl in H0. rename H0 into H. rewrite lookup_empty in H. discriminate.
Qed.

Lemma world_ok_start w d resume :
  world_ok w -> world_ok (after_start w d resume INTERVIEW_QUESTIONS).
Proof.
  intros [Hb Hs Hd].
  pose proof (fresh_loc_unused (heap w)) as Hf.
  assert (Hold : forall sid s, interview_sessions w !! sid = Some s ->
                               questions s <> fresh (dom (heap w))).
  { intros sid s H E. destruct (Hs _ _ H) as [_ Hq _ _ _].
    rewrite E in Hq. congruence. }
  split.
  - cbn [heap after_start]. rewrite lookup_insert_ne; [exact Hb|].
    intros E. rewrite E in Hf. congruence.
  - intros sid s. cbn [interview_sessions after_start].
    rewrite lookup_insert. case_decide as Hk.
    + intros [= <-]. split; cbn [created answers current_question questions metrics heap after_start].
      * reflexivity.
      * apply lookup_insert_eq.
      * intros E. rewrite E in Hf. congruence.
      * apply Nat.le_0_l.
      * apply sampled_in_range.
    + intros H. destruct (Hs _ _ H) as [H1 H2 H3 H4 H5].
      split; try assumption. cbn [heap after_start].
      rewrite lookup_insert_ne; [exact H2|]. intros E. exact (Hold _ _ H (eq_sym E)).
  - intros a b sa sb Hab. cbn [interview_sessions after_start].
    rewrite !lookup_insert. repeat case_decide; subst.
    + congruence.
    + intros [= <-] Hy. cbn [created questions]. intros E. exact (Hold _ _ Hy (eq_sym E)).
    + intros Hx [= <-]. cbn [created questions]. exact (Hold _ _ Hx).
    + apply Hd. exact Hab.
Qed.

Lemma world_ok_submit w sid s q a :
  world_ok w ->
  interview_sessions w !! sid = Some s ->
  INTERVIEW_QUESTIONS !! current_question s = Some q ->
  world_ok (advanced 1 3 (<[ sid := answered w s q a ]> (interview_sessions w)) w).
Proof.
  intros [Hb Hs Hd] H Hq. destruct (Hs _ _ H) as [H1 H2 H3 H4 H5].
  apply lookup_lt_Some in Hq.
  split.
  - exact Hb.
  - intros k s'. cbn [interview_sessions advanced]. rewrite lookup_insert.
    case_decide as Hk.
    + intros [= <-]. split; cbn [answered answers current_question questions metrics heap advanced].
      * rewrite length_app. simpl. lia.
      * exact H2.
      * exact H3.
      * lia.
      * apply sampled_in_range.
    + intros H'. destruct (Hs _ _ H'). split; assumption.
  - intros x y sx sy Hxy. cbn [interview_sessions advanced].
    rewrite !lookup_insert. repeat case_decide; subst.
    + congruence.
    + intros [= <-] Hy. cbn [answered questions]. exact (Hd _ _ _ _ Hxy H Hy).
    + intros Hx [= <-]. cbn [answered questions]. exact (Hd _ _ _ _ Hxy Hx H).
    + apply Hd. exact Hxy.
Qed.

Lemma handle_preserves r w : world_ok w -> world_ok (handle r w).2.
Proof.
  intros Hok. destruct r as [[[d|] resume]|[[[sid|] a]|]|sid|sid|].
  - rewrite (start_interview_ok d resume w _ (ok_bank _ Hok)).
    apply world_ok_start, Hok.
  - exact Hok.
  - destruct (interview_sessions w !! sid) as [s|] eqn:Hs.
    + pose proof (ok_sessions _ Hok _ _ Hs) as Hso.
      destruct (INTERVIEW_QUESTIONS !! current_question s) as [q|] eqn:Hq.
      * change (SubmitAnswer _) with (submit sid a).
        rewrite (submit_answer_accept sid a w s _ q Hs (ok_questions _ _ Hso) Hq).
        apply world_ok_submit; assumption.
      * change (SubmitAnswer _) with (submit sid a).
        rewrite (submit_answer_past_end sid a w s _ Hs (ok_questions _ _ Hso)).
        -- exact Hok.
        -- apply lookup_ge_None. exact Hq.
    + change (SubmitAnswer _) with (submit sid a).
      rewrite (submit_answer_unknown sid a w Hs). exact Hok.
  - exact Hok.
  - exact Hok.
  - rewrite get_report_world. exact Hok.
  - rewrite get_metrics_world. exact Hok.
  - revert Hok. apply world_ok_same; reflexivity.
Qed.

Lemma reachable_ok w : reachable w -> world_ok w.
Proof.
  induction 1 as [clk ent|r w _ IH].
  - apply world_ok_initial.
  - apply handle_preserves, IH.
Qed.

Lemma handle_session r w sid s' :
  world_ok w ->
  interview_sessions (handle r w).2 !! sid = Some s' ->
  (exists d resume,
     r = StartInterview {| start_json := Some d; start_resume := resume |} /\
     sid = new_session_id w /\ s' = created w d resume) \/
  (exists s,
     interview_sessions w !! sid = Some s /\
     (s' = s \/
      exists a q,
        r = submit sid a /\
        INTERVIEW_QUESTIONS !! current_question s = Some q /\
        s' = answered w s q (default ""%string a))).
Proof.
  intros Hok. destruct r as [[[d|] resume]|[[[k|] a]|]|k|k|].
  - rewrite (start_interview_ok d resume w _ (ok_bank _ Hok)).
    cbn [snd interview_sessions after_start]. rewrite lookup_insert.
    case_decide as Hk.
    + intros [= <-]. left. exists d, resume. auto.
    + intros H. right. exists s'. auto.
  - intros H. right. exists s'. auto.
  - change (SubmitAnswer _) with (submit k a).
    destruct (interview_sessions w !! k) as [s|] eqn:Hs.
    + pose proof (ok_sessions _ Hok _ _ Hs) as Hso.
      destruct (INTERVIEW_QUESTIONS !! current_question s) as [q|] eqn:Hq.
      * rewrite (submit_answer_accept k a w s _ q Hs (ok_questions _ _ Hso) Hq).
        cbn [snd interview_sessions advanced]. rewrite lookup_insert.
        case_decide as Hk.
        -- intros [= <-]. subst k. right. exists s. split; [exact Hs|].
           right. exists a, q. auto.
        -- intros H. right. exists s'. auto.
      * rewrite (submit_answer_past_end k a w s _ Hs (ok_questions _ _ Hso)).
        -- intros H. right. exists s'. auto.
        -- apply lookup_ge_None. exact Hq.
    + rewrite (submit_answer_unknown k a w Hs).
      intros H. right. exists s'. auto.
  - intros H. right. exists s'. auto.
  - intros H. right. exists s'. auto.
  - rewrite get_report_world. intros H. right. exists s'. auto.
  - rewrite get_metrics_world. intros H. right. exists s'. auto.
  - intros H. right. exists s'. auto.
Qed.

Lemma run_cons r rest w :
  (run (r :: rest) w).1 = (handle r w).1 :: (run rest (handle r w).2).1.
Proof.
  cbn [run]. destruct (handle r w) as [resp w1]. cbn [fst snd].
  destruct (run rest w1). reflexivity.
Qed.

Lemma submit_run given : forall w sid s qs,
  interview_sessions w !! sid = Some s ->
  heap w !! questions s = Some qs ->
  (current_question s + length given = length qs)%nat ->
  given <> [] ->
  map (body_field "interview_complete") (run (map (submit sid) given) w).1 =
  replicate (length given - 1) (Some (JBool false)) ++ [Some (JBool true)].
Proof.
  induction given as [|a rest IH]; intros w sid s qs Hs Hq Hlen Hne; [congruence|].
  destruct (lookup_lt_is_Some_2 qs (current_question s)) as [q Hi].
  { simpl in Hlen. lia. }
  cbn [map]. rewrite run_cons.
  rewrite (submit_answer_accept sid a w s qs q Hs Hq Hi). cbn [fst snd map].
  destruct rest as [|b rest'].
  - simpl in Hlen.
    replace (length qs <=? S (current_question s))%nat with true
      by (symmetry; apply Nat.leb_le; lia).
    reflexivity.
  - simpl in Hlen.
    replace (length qs <=? S (current_question s))%nat with false
      by (symmetry; apply Nat.leb_gt; lia).
    destruct (lookup_lt_is_Some_2 qs (S (current_question s))) as [q' Hn]; [lia|].
    rewrite Hn.
    erewrite (IH _ sid (answered w s q (default ""%string a)) qs).
    + cbn [length]. rewrite !Nat.sub_succ, !Nat.sub_0_r. reflexivity.
    + apply lookup_insert_eq.
    + exact Hq.
    + simpl. lia.
    + discriminate.
Qed.

Lemma reachable_run rs : forall w, reachable w -> reachable (run rs w).2.
Proof.
  induction rs as [|r rest IH]; intros w H; [exact H|].
  cbn [run]. pose proof (reachable_handle r w H) as H1.
  destruct (handle r w) as [resp w1]. specialize (IH w1 H1).
  destruct (run rest w1). exact IH.
Defined.

Lemma scenario_begun_reachable : reachable scenario_begun.
Proof. apply reachable_handle, reachable_initial. Defined.

Lemma scenario_done_reachable : reachable scenario_done.
Proof. apply reachable_run, scenario_begun_reachable. Defined.

Lemma scenario_bold_reachable : reachable scenario_bold.
Proof. apply reachable_run, scenario_begun_reachable. Defined.

(** The scenario, read back from its report. *)
Example scenario_transcript :
  match (handle (GetReport (Some scenario_sid)) scenario_done).1 with
  | SendFile story _ _ => qa_pairs story
  | Json _ _ => []
  end =
  [("1", "Can you walk me through your experience with the technologies mentioned in your resume?",
    "I have 5 years of experience");
   ("2", "Describe a challenging project you worked on and how you overcame obstacles.",
    "second");
   ("3", "How do you handle working in a team environment with different personalities?",
    "third")]%string.
Proof. vm_compute. reflexivity. Qed.

(** ** The claims *)

(** C1. A submit to a session whose cursor [i] is below the number [N] of
    its questions appends the record of question [i], the answer and the
    time, moves the cursor to [i+1], takes fresh metrics, and answers 200
    with [interview_complete] true exactly when [i+1 = N]; before that it
    names question [i+1] as the next one, with number [i+2].  So a run of
    submits that takes the cursor to [N] reports completion on its last
    call and on no earlier one. *)
Theorem submit_answer_advances w sid s qs a :
  interview_sessions w !! sid = Some s ->
  heap w !! questions s = Some qs ->
  (current_question s < length qs)%nat ->
  exists q resp w' s',
    qs !! current_question s = Some q /\
    handle (submit sid a) w = (resp, w') /\
    interview_sessions w' = <[ sid := s' ]> (interview_sessions w) /\
    heap w' = heap w /\
    answers s' = answers s ++
      [{| question := q; answer := default ""%string a;
          timestamp := Py.isoformat (clock w (clock_reads w)) |}] /\
    current_question s' = S (current_question s) /\
    questions s' = questions s /\
    metrics s' = sampled w /\ draws w' = (3 + draws w)%nat /\
    status_of resp = Some 200 /\
    body_field "metrics" resp = Some (json_metrics (sampled w)) /\
    body_field "interview_complete" resp =
      Some (JBool (S (current_question s) =? length qs)%nat) /\
    ((S (current_question s) < length qs)%nat ->
     exists next_question,
       qs !! S (current_question s) = Some next_question /\
       body_field "next_question" resp = Some (JStr next_question) /\
       body_field "question_number" resp =
         Some (JInt (Z.of_nat (current_question s) + 2))) /\
    (forall given,
       (current_question s + length given = length qs)%nat ->
       map (body_field "interview_complete") (run (map (submit sid) given) w).1 =
       replicate (length given - 1) (Some (JBool false)) ++ [Some (JBool true)]).
Proof.
  intros Hs Hq Hlt.
  destruct (lookup_lt_is_Some_2 qs (current_question s) Hlt) as [q Hi].
  eexists q, _, _, (answered w s q (default ""%string a)).
  split; [exact Hi|].
  split; [apply (submit_answer_accept sid a w s qs q Hs Hq Hi)|].
  repeat (split; [reflexivity|]).
  cbv zeta.
  destruct (Nat.leb_spec (length qs) (S (current_question s))) as [Hle|Hgt].
  - assert (E : S (current_question s) = length qs) by lia.
    rewrite E, Nat.eqb_refl.
    repeat (split; [reflexivity|]). split; [lia|].
    intros given Hg. apply (submit_run given w sid s qs Hs Hq Hg).
    intros ->. simpl in Hg. lia.
  - destruct (lookup_lt_is_Some_2 qs (S (current_question s)) Hgt) as [nq Hn].
    rewrite Hn.
    replace (S (current_question s) =? length qs)%nat with false
      by (symmetry; apply Nat.eqb_neq; lia).
    repeat (split; [reflexivity|]). split.
    + intros _. exists nq. repeat split.
      change (Some (json_nat (S (current_question s) + 1)) =
              Some (JInt (Z.of_nat (current_question s) + 2))).
      unfold json_nat. do 2 f_equal. lia.
    + intros given Hg. apply (submit_run given w sid s qs Hs Hq Hg).
      intros ->. simpl in Hg. lia.
Qed.

Lemma submit_answer_advances_witness :
  exists resp w',
    handle (submit scenario_sid (Some "I have 5 years of experience"%string))
           scenario_begun = (resp, w') /\
    body_field "interview_complete" resp = Some (JBool false) /\
    body_field "question_number" resp = Some (JInt 2).
Proof.
  destruct (submit_answer_advances scenario_begun scenario_sid
              (created (initial scenario_clock scenario_entropy scenario_markup)
                       {| body_job_role := Some "Backend Engineer"%string |} None)
              INTERVIEW_QUESTIONS (Some "I have 5 years of experience"%string))
    as (q & resp & w' & s' & _ & Hrun & _ & _ & _ & _ & _ & _ & _ & _ & _ & Hc & Hn & _).
  - vm_compute. reflexivity.
  - vm_compute. reflexivity.
  - simpl. lia.
  - exists resp, w'. split; [exact Hrun|]. split; [exact Hc|].
    destruct Hn as (nq & _ & _ & Hnum); [simpl; lia|]. exact Hnum.
Defined.

(** C2. In every state the process can reach, each session has as many
    recorded answers as its cursor says. *)
Theorem answers_length_is_cursor w sid s :
  reachable w ->
  interview_sessions w !! sid = Some s ->
  length (answers s) = current_question s.
Proof.
  intros Hr Hs. exact (ok_answers _ _ (ok_sessions _ (reachable_ok _ Hr) _ _ Hs)).
Qed.

Lemma answers_length_is_cursor_witness :
  exists s, interview_sessions scenario_done !! scenario_sid = Some s /\
            length (answers s) = 3%nat /\ current_question s = 3%nat.
Proof.
  eassert (Hs : interview_sessions scenario_done !! scenario_sid = Some _)
    by (vm_compute; reflexivity).
  pose proof (answers_length_is_cursor _ _ _ scenario_done_reachable Hs) as H.
  eexists. split; [exact Hs|].
  split; [reflexivity|]. rewrite <- H. reflexivity.
Defined.

(** C3. In every reachable state a session's cursor is between 0 and the
    length of its questions list.  One request either leaves the cursor of
    a session as it is, or is an accepted submit for that session and adds
    one to it, or is a start that installs a fresh record under that
    identifier, with cursor 0. *)
Theorem cursor_within_questions w :
  reachable w ->
  (forall sid s,
     interview_sessions w !! sid = Some s ->
     exists qs, heap w !! questions s = Some qs /\
                (0 <= current_question s <= length qs)%nat) /\
  (forall r sid s',
     interview_sessions (handle r w).2 !! sid = Some s' ->
     (current_question s' = 0%nat /\ exists req, r = StartInterview req) \/
     (exists s, interview_sessions w !! sid = Some s /\
        (current_question s' = current_question s \/
         (current_question s' = S (current_question s) /\
          exists a, r = submit sid a)))).
Proof.
  intros Hr. pose proof (reachable_ok _ Hr) as Hok. split.
  - intros sid s Hs. destruct (ok_sessions _ Hok _ _ Hs) as [_ Hq _ Hc _].
    exists INTERVIEW_QUESTIONS. split; [exact Hq|]. split; [lia|exact Hc].
  - intros r sid s' H.
    destruct (handle_session r w sid s' Hok H)
      as [(d & resume & -> & _ & ->)|(s & Hs & [->|(a & q & -> & _ & ->)])].
    + left. split; [reflexivity|]. eexists. reflexivity.
    + right. exists s. auto.
    + right. exists s. split; [exact Hs|]. right. split; [reflexivity|].
      exists a. reflexivity.
Qed.

Lemma cursor_within_questions_witness :
  exists s qs,
    interview_sessions scenario_done !! scenario_sid = Some s /\
    heap scenario_done !! questions s = Some qs /\
    (0 <= current_question s <= length qs)%nat.
Proof.
  destruct (cursor_within_questions scenario_done scenario_done_reachable) as [Hb _].
  eassert (Hs : interview_sessions scenario_done !! scenario_sid = Some _)
    by (vm_compute; reflexivity).
  destruct (Hb _ _ Hs) as (qs & Hq & Hc).
  eexists _, qs. split; [exact Hs|]. split; [exact Hq|exact Hc].
Defined.

(** C4. In every reachable state, right after creation as after any
    submit, each of a session's three metrics is an integer from 70 to 95. *)
Theorem metrics_within_70_95 w sid s :
  reachable w ->
  interview_sessions w !! sid = Some s ->
  70 <= attention (metrics s) <= 95 /\
  70 <= positivity (metrics s) <= 95 /\
  70 <= confidence (metrics s) <= 95.
Proof.
  intros Hr Hs. exact (ok_metrics _ _ (ok_sessions _ (reachable_ok _ Hr) _ _ Hs)).
Qed.

Lemma metrics_within_70_95_witness :
  exists s, interview_sessions scenario_begun !! scenario_sid = Some s /\
            70 <= attention (metrics s) <= 95 /\
            70 <= positivity (metrics s) <= 95 /\
            70 <= confidence (metrics s) <= 95.
Proof.
  eassert (Hs : interview_sessions scenario_begun !! scenario_sid = Some _)
    by (vm_compute; reflexivity).
  eexists. split; [exact Hs|].
  exact (metrics_within_70_95 _ _ _ scenario_begun_reachable Hs).
Defined.



(** C6. Starting an interview with a JSON body answers 200 with the first
    question of the bank and a total of 3, and stores under the new
    identifier a record with cursor 0, no answers, metrics from the next
    three draws, and a questions list of its own holding the bank's items. *)
Theorem start_interview_first_question w d resume :
  reachable w ->
  exists resp w' s first_question,
    handle (StartInterview {| start_json := Some d; start_resume := resume |}) w =
      (resp, w') /\
    heap w !! bank = Some INTERVIEW_QUESTIONS /\
    INTERVIEW_QUESTIONS !! 0%nat = Some first_question /\
    status_of resp = Some 200 /\
    body_field "success" resp = Some (JBool true) /\
    body_field "session_id" resp = Some (JStr (new_session_id w)) /\
    body_field "first_question" resp = Some (JStr first_question) /\
    body_field "total_questions" resp =
      Some (JInt (Z.of_nat (length INTERVIEW_QUESTIONS))) /\
    length INTERVIEW_QUESTIONS = 3%nat /\
    interview_sessions w' !! new_session_id w = Some s /\
    current_question s = 0%nat /\
    answers s = [] /\
    metrics s = sampled (advanced 0 1 (interview_sessions w) w) /\
    draws w' = (4 + draws w)%nat /\
    heap w !! questions s = None /\
    heap w' !! questions s = Some INTERVIEW_QUESTIONS.
Proof.
  intros Hr. pose proof (ok_bank _ (reachable_ok _ Hr)) as Hb.
  eexists _, _, (created w d resume), _.
  split; [apply (start_interview_ok d resume w _ Hb)|].
  split; [exact Hb|].
  split; [reflexivity|].
  do 6 (split; [reflexivity|]).
  split; [apply lookup_insert_eq|].
  do 4 (split; [reflexivity|]).
  split; [apply fresh_loc_unused|apply lookup_insert_eq].
Qed.

Lemma start_interview_first_question_witness :
  exists resp w',
    handle scenario_start (initial scenario_clock scenario_entropy scenario_markup) = (resp, w') /\
    body_field "first_question" resp =
      Some (JStr "Can you walk me through your experience with the technologies mentioned in your resume?") /\
    body_field "total_questions" resp = Some (JInt 3).
Proof.
  destruct (start_interview_first_question
              (initial scenario_clock scenario_entropy scenario_markup)
              {| body_job_role := Some "Backend Engineer"%string |} None
              (reachable_initial _ _ _))
    as (resp & w' & s & q0 & Hrun & _ & Hq0 & _ & _ & _ & Hfirst & Htotal & _).
  exists resp, w'. split; [exact Hrun|].
  injection Hq0 as <-. split; [exact Hfirst|exact Htotal].
Defined.

(** C7. With an identifier that is not in the store, submit, get_metrics
    and get_report each answer 400 with the error "Invalid session ID",
    and the process state stays as it was. *)
Theorem unknown_session_rejected w sid a :
  interview_sessions w !! sid = None ->
  let not_found :=
    Json (JObj [("success", JBool false);
                ("error", JStr "Invalid session ID")]%string) 400 in
  handle (SubmitAnswer (Some {| body_session_id := Some sid; body_answer := a |})) w
    = (not_found, w) /\
  handle (GetMetrics (Some sid)) w = (not_found, w) /\
  handle (GetReport (Some sid)) w = (not_found, w).
Proof.
  intros H not_found. split; [|split].
  - apply (submit_answer_unknown sid a w H).
  - apply get_metrics_unknown, H.
  - apply get_report_unknown, H.
Qed.

Lemma unknown_session_rejected_witness :
  status_of (handle (GetMetrics (Some "session_0"%string)) scenario_begun).1 = Some 400 /\
  (handle (GetMetrics (Some "session_0"%string)) scenario_begun).2 = scenario_begun.
Proof.
  destruct (unknown_session_rejected scenario_begun "session_0" None) as (_ & Hm & _).
  - vm_compute. reflexivity.
  - rewrite Hm. split; reflexivity.
Defined.




(** C9. A session's questions list is a list object of its own, holding
    the items of the bank: changing it in place changes neither the bank
    nor the list of any other session, and changing the bank in place
    changes no session's list. *)
Theorem questions_list_is_private_copy w a sa :
  reachable w ->
  interview_sessions w !! a = Some sa ->
  questions_of w a = heap w !! bank /\
  questions sa <> bank /\
  forall items,
    heap (mutate (questions sa) items w) !! bank = heap w !! bank /\
    questions_of (mutate bank items w) a = questions_of w a /\
    forall b, a <> b ->
      questions_of (mutate (questions sa) items w) b = questions_of w b.
Proof.
  intros Hr Ha. destruct (reachable_ok _ Hr) as [Hb Hs Hd].
  destruct (Hs _ _ Ha) as [_ Hq Hown _ _].
  split; [unfold questions_of; rewrite Ha, Hq, Hb; reflexivity|].
  split; [exact Hown|].
  intros items. split; [|split].
  - cbn [mutate set_heap heap]. apply lookup_insert_ne. exact Hown.
  - unfold questions_of. cbn [mutate set_heap heap interview_sessions].
    rewrite Ha. apply lookup_insert_ne. congruence.
  - intros b Hab. unfold questions_of.
    cbn [mutate set_heap heap interview_sessions].
    destruct (interview_sessions w !! b) as [sb|] eqn:Hsb; [|reflexivity].
    apply lookup_insert_ne. exact (Hd _ _ _ _ Hab Ha Hsb).
Qed.

Lemma questions_list_is_private_copy_witness :
  exists sa,
    interview_sessions scenario_begun !! scenario_sid = Some sa /\
    heap (mutate (questions sa) [] scenario_begun) !! bank = Some INTERVIEW_QUESTIONS.
Proof.
  eassert (Hs : interview_sessions scenario_begun !! scenario_sid = Some _)
    by (vm_compute; reflexivity).
  destruct (questions_list_is_private_copy _ _ _ scenario_begun_reachable Hs)
    as (_ & _ & Hm).
  eexists. split; [exact Hs|].
  rewrite (proj1 (Hm [])). vm_compute. reflexivity.
Defined.

(** C10. A submit to a session whose cursor has reached the end of its
    questions list answers 500 with the index error, and nothing of the
    process state changes: no answer is appended, the cursor and the
    metrics stay, no clock reading and no draw is taken. *)
Theorem submit_after_completion_fails_unchanged w sid s qs a :
  interview_sessions w !! sid = Some s ->
  heap w !! questions s = Some qs ->
  current_question s = length qs ->
  handle (SubmitAnswer (Some {| body_session_id := Some sid; body_answer := a |})) w =
  (Json (JObj [("success", JBool false);
               ("error", JStr "list index out of range")]%string) 500, w).
Proof.
  intros Hs Hq Hc.
  apply (submit_answer_past_end sid a w s qs Hs Hq). lia.
Qed.

Lemma submit_after_completion_fails_unchanged_witness :
  handle (submit scenario_sid (Some "fourth"%string)) scenario_done =
  (Json (JObj [("success", JBool false);
               ("error", JStr "list index out of range")]%string) 500, scenario_done).
Proof.
  eapply (submit_after_completion_fails_unchanged scenario_done scenario_sid).
  - vm_compute. reflexivity.
  - vm_compute. reflexivity.
  - reflexivity.
Defined.

(** ** The effect of one request *)

Lemma handle_effect r w : world_ok w -> effect w r (handle r w).2.
Proof.
  intros Hok. destruct r as [[[d|] resume]|[[[k|] a]|]|k|k|].
  - rewrite (start_interview_ok d resume w _ (ok_bank _ Hok)). constructor.
  - constructor.
  - change (SubmitAnswer _) with (submit k a).
    destruct (interview_sessions w !! k) as [s|] eqn:Hs.
    + pose proof (ok_sessions _ Hok _ _ Hs) as Hso.
      destruct (INTERVIEW_QUESTIONS !! current_question s) as [q|] eqn:Hq.
      * rewrite (submit_answer_accept k a w s _ q Hs (ok_questions _ _ Hso) Hq).
        constructor; assumption.
      * rewrite (submit_answer_past_end k a w s _ Hs (ok_questions _ _ Hso)).
        -- constructor.
        -- apply lookup_ge_None. exact Hq.
    + rewrite (submit_answer_unknown k a w Hs). constructor.
  - constructor.
  - constructor.
  - rewrite get_report_world. constructor.
  - rewrite get_metrics_world. constructor.
  - constructor.
Qed.

(** ** Further invariants of the reachable states *)

Lemma reachable_keys w sid :
  reachable w -> is_Some (interview_sessions w !! sid) ->
  exists rest, sid = ("session_" +:+ rest)%string.
Proof.
  intros Hr. revert sid. induction Hr as [clk ent|r w Hr IH]; intros sid Hin.
  - simpl in Hin. rewrite lookup_empty in Hin. destruct Hin as [? Hin]. discriminate.
  - destruct (handle_effect r w (reachable_ok _ Hr)) as [r| |d resume|k a s q Hs Hq].
    + apply IH, Hin.
    + apply IH, Hin.
    + cbn [interview_sessions after_start] in Hin. rewrite lookup_insert in Hin.
      case_decide as Hk.
      * subst sid. eexists. reflexivity.
      * apply IH, Hin.
    + cbn [interview_sessions advanced] in Hin. rewrite lookup_insert in Hin.
      case_decide as Hk.
      * subst sid. apply IH. rewrite Hs. eexists. reflexivity.
      * apply IH, Hin.
Qed.

Lemma reachable_key_nonempty w sid s :
  reachable w -> interview_sessions w !! sid = Some s -> sid <> ""%string.
Proof.
  intros Hr Hs. destruct (reachable_keys w sid Hr) as [rest ->].
  - rewrite Hs. eexists. reflexivity.
  - discriminate.
Qed.

(** ** Further properties of the handlers *)

(** X1. A start or submit request for which [request.get_json()] returns
    [None], as it does for the body [null], answers 500 with the text of
    the attribute error that [data.get] raises, and the process state stays
    as it was: no session is made and [current_session_id] is not set. *)
Theorem null_body_rejected w resume :
  let failure :=
    Json (JObj [("success", JBool false);
                ("error", JStr "'NoneType' object has no attribute 'get'")]%string) 500 in
  handle (StartInterview {| start_json := None; start_resume := resume |}) w
    = (failure, w) /\
  handle (SubmitAnswer None) w = (failure, w).
Proof. split; reflexivity. Qed.

(** X2. get_metrics and get_report answer 400 "Invalid session ID" when the
    query has no session_id or an empty one, whatever the store holds, and a
    submit whose body has no session_id does the same; the state stays. *)
Theorem missing_session_id_rejected w a :
  let not_found :=
    Json (JObj [("success", JBool false);
                ("error", JStr "Invalid session ID")]%string) 400 in
  handle (GetMetrics None) w = (not_found, w) /\
  handle (GetMetrics (Some ""%string)) w = (not_found, w) /\
  handle (GetReport None) w = (not_found, w) /\
  handle (GetReport (Some ""%string)) w = (not_found, w) /\
  handle (SubmitAnswer (Some {| body_session_id := None; body_answer := a |})) w
    = (not_found, w).
Proof. repeat split; reflexivity. Qed.

(** X3. get_metrics and get_report never change the process state, with
    any argument; health answers 200 with the time it read and changes
    nothing but the position of the clock. *)
Theorem queries_leave_state w sid :
  (handle (GetMetrics sid) w).2 = w /\
  (handle (GetReport sid) w).2 = w /\
  (handle Health w).1 =
    Json (JObj [("status", JStr "healthy");
                ("timestamp", JStr (Py.isoformat (clock w (clock_reads w))))]%string) 200 /\
  interview_sessions (handle Health w).2 = interview_sessions w /\
  heap (handle Health w).2 = heap w /\
  draws (handle Health w).2 = draws w /\
  current_session_id (handle Health w).2 = current_session_id w /\
  clock_reads (handle Health w).2 = S (clock_reads w).
Proof.
  split; [apply get_metrics_world|]. split; [apply get_report_world|].
  repeat split; reflexivity.
Qed.

(** X4. Every key of the store of a reachable state begins with
    "session_"; in particular no key is empty. *)
Theorem session_ids_prefixed w sid :
  reachable w ->
  is_Some (interview_sessions w !! sid) ->
  exists rest, sid = ("session_" +:+ rest)%string.
Proof. apply reachable_keys. Qed.

Lemma session_ids_prefixed_witness :
  exists rest, scenario_sid = ("session_" +:+ rest)%string.
Proof.
  apply (session_ids_prefixed scenario_begun scenario_sid scenario_begun_reachable).
  vm_compute. eexists. reflexivity.
Defined.

(** X5. In a reachable state every stored session can be queried:
    get_metrics answers 200 with its metrics, its cursor and a total of 3;
    get_report sends the story that [generate_pdf_report] returns for its
    record under the name interview_report_<id>.pdf, and answers 500 with
    the text of the error when [generate_pdf_report] raises; neither
    changes the state. *)
Theorem stored_session_queryable w sid s :
  reachable w ->
  interview_sessions w !! sid = Some s ->
  handle (GetMetrics (Some sid)) w =
    (Json (JObj [("success", JBool true);
                 ("metrics", JObj [("attention", JInt (attention (metrics s)));
                                   ("positivity", JInt (positivity (metrics s)));
                                   ("confidence", JInt (confidence (metrics s)))]);
                 ("current_question", JInt (Z.of_nat (current_question s)));
                 ("total_questions", JInt 3)]%string) 200, w) /\
  handle (GetReport (Some sid)) w =
    (match (generate_pdf_report s w).1 with
     | Returned story =>
       SendFile story ("interview_report_" +:+ sid +:+ ".pdf") "application/pdf"
     | Raised e =>
       Json (JObj [("success", JBool false);
                   ("error", JStr (Py.str_exn e))]%string) 500
     end, w).
Proof.
  intros Hr Hs. pose proof (reachable_key_nonempty w sid s Hr Hs) as Hne.
  pose proof (ok_questions _ _ (ok_sessions _ (reachable_ok _ Hr) _ _ Hs)) as Hq.
  split.
  - rewrite (get_metrics_ok sid w s _ Hs Hq Hne). reflexivity.
  - rewrite (get_report_ok sid w s Hs Hne), generate_pdf_report_spec.
    destruct (first_rejected w (report_story s)); reflexivity.
Qed.

Lemma stored_session_queryable_witness :
  body_field "current_question" (handle (GetMetrics (Some scenario_sid)) scenario_done).1
    = Some (JInt 3) /\
  status_of (handle (GetReport (Some scenario_sid)) scenario_done).1 = None /\
  status_of (handle (GetReport (Some scenario_sid)) scenario_bold).1 = Some 500.
Proof.
  eassert (Hs : interview_sessions scenario_done !! scenario_sid = Some _)
    by (vm_compute; reflexivity).
  eassert (Hb : interview_sessions scenario_bold !! scenario_sid = Some _)
    by (vm_compute; reflexivity).
  rewrite (proj1 (stored_session_queryable _ _ _ scenario_done_reachable Hs)).
  rewrite (proj2 (stored_session_queryable _ _ _ scenario_done_reachable Hs)).
  rewrite (proj2 (stored_session_queryable _ _ _ scenario_bold_reachable Hb)).
  split; [reflexivity|]. split; vm_compute; reflexivity.
Defined.

(** X6. A submit for one session leaves the record of every other session,
    every list object and [current_session_id] as they were. *)
Theorem submit_leaves_other_sessions w sid a other :
  reachable w ->
  sid <> other ->
  interview_sessions (handle (submit sid a) w).2 !! other
    = interview_sessions w !! other /\
  heap (handle (submit sid a) w).2 = heap w /\
  current_session_id (handle (submit sid a) w).2 = current_session_id w.
Proof.
  intros Hr Hne.
  generalize (handle_effect (submit sid a) w (reachable_ok _ Hr)).
  generalize (handle (submit sid a) w).2. intros w' He.
  inversion He; subst.
  - auto.
  - cbn [interview_sessions heap current_session_id advanced].
    rewrite lookup_insert_ne by exact Hne. auto.
Qed.

Lemma submit_leaves_other_sessions_witness :
  interview_sessions
    (handle (submit scenario_sid (Some "x"%string)) scenario_begun).2 !! "session_0"%string
  = None.
Proof.
  rewrite (proj1 (submit_leaves_other_sessions scenario_begun scenario_sid
                    (Some "x"%string) "session_0"%string scenario_begun_reachable
                    ltac:(discriminate))).
  vm_compute. reflexivity.
Defined.

(** X7. A start with a JSON body leaves the record of every session under
    another identifier and the items of every existing list object as they
    were, and sets [current_session_id] to the identifier it returns. *)
Theorem start_leaves_other_sessions w d resume other :
  reachable w ->
  other <> new_session_id w ->
  let w' := (handle (StartInterview {| start_json := Some d;
                                       start_resume := resume |}) w).2 in
  interview_sessions w' !! other = interview_sessions w !! other /\
  (forall l xs, heap w !! l = Some xs -> heap w' !! l = Some xs) /\
  current_session_id w' = Some (new_session_id w).
Proof.
  intros Hr Hne w'. subst w'.
  rewrite (start_interview_ok d resume w _ (ok_bank _ (reachable_ok _ Hr))).
  cbn [snd interview_sessions heap current_session_id after_start].
  split; [apply lookup_insert_ne; congruence|]. split; [|reflexivity].
  intros l xs Hl. rewrite lookup_insert_ne; [exact Hl|].
  intros E. pose proof (fresh_loc_unused (heap w)) as F. rewrite E in F. congruence.
Qed.

Lemma start_leaves_other_sessions_witness :
  exists s,
    interview_sessions (handle scenario_start scenario_done).2 !! scenario_sid = Some s /\
    current_question s = 3%nat.
Proof.
  destruct (start_leaves_other_sessions scenario_done
              {| body_job_role := Some "Backend Engineer"%string |} None scenario_sid
              scenario_done_reachable) as (Hs & _ & _).
  - vm_compute. discriminate.
  - eexists. split; [etransitivity; [exact Hs|vm_compute; reflexivity]|reflexivity].
Defined.

(** X8. No request removes a session: after any request on a reachable
    state the store has the keys it had, and one more exactly when the
    request was a start whose new identifier was not yet a key. *)
Theorem sessions_never_removed w r :
  reachable w ->
  (forall sid, is_Some (interview_sessions w !! sid) ->
               is_Some (interview_sessions (handle r w).2 !! sid)) /\
  (dom (interview_sessions (handle r w).2) = dom (interview_sessions w) \/
   (exists req, r = StartInterview req) /\
   dom (interview_sessions (handle r w).2) =
     {[ new_session_id w ]} ∪ dom (interview_sessions w)).
Proof.
  intros Hr.
  destruct (handle_effect r w (reachable_ok _ Hr)) as [r| |d resume|k a s q Hs Hq].
  - auto.
  - auto.
  - cbn [interview_sessions after_start]. split.
    + intros sid Hin. rewrite lookup_insert. case_decide; [eexists; reflexivity|exact Hin].
    + right. split; [eexists; reflexivity|]. apply dom_insert_L.
  - cbn [interview_sessions advanced]. split.
    + intros sid Hin. rewrite lookup_insert. case_decide; [eexists; reflexivity|exact Hin].
    + left. apply dom_insert_lookup_L. rewrite Hs. eexists. reflexivity.
Qed.

Lemma sessions_never_removed_witness :
  is_Some (interview_sessions (handle scenario_start scenario_done).2 !! scenario_sid).
Proof.
  apply (proj1 (sessions_never_removed scenario_done scenario_start
                  scenario_done_reachable)).
  vm_compute. eexists. reflexivity.
Defined.

(** X9. Unless the request is a start that makes this very identifier anew,
    a request keeps a stored session's job role, resume filename, start
    time and questions list, keeps its recorded answers as a prefix of the
    new ones, and does not move its cursor back. *)
Theorem session_history_kept w r sid s s' :
  reachable w ->
  interview_sessions w !! sid = Some s ->
  interview_sessions (handle r w).2 !! sid = Some s' ->
  (forall req, r = StartInterview req -> sid <> new_session_id w) ->
  job_role s' = job_role s /\
  resume_filename s' = resume_filename s /\
  start_time s' = start_time s /\
  questions s' = questions s /\
  answers s `prefix_of` answers s' /\
  (current_question s <= current_question s')%nat.
Proof.
  intros Hr Hs Hs' Hstart.
  destruct (handle_session r w sid s' (reachable_ok _ Hr) Hs')
    as [(d & resume & -> & Hsid & _)|(s0 & Hs0 & [->|(a & q & _ & _ & ->)])].
  - exfalso. exact (Hstart _ eq_refl Hsid).
  - rewrite Hs in Hs0. injection Hs0 as <-. repeat split; auto.
  - rewrite Hs in Hs0. injection Hs0 as <-.
    cbn [answered job_role resume_filename start_time questions answers current_question].
    repeat split; auto. apply prefix_app_r. reflexivity.
Qed.

Lemma session_history_kept_witness :
  exists s s',
    interview_sessions scenario_begun !! scenario_sid = Some s /\
    interview_sessions (handle (submit scenario_sid None) scenario_begun).2 !! scenario_sid
      = Some s' /\
    start_time s' = start_time s /\ answers s `prefix_of` answers s'.
Proof.
  eassert (Hs : interview_sessions scenario_begun !! scenario_sid = Some _)
    by (vm_compute; reflexivity).
  eassert (Hs' : interview_sessions (handle (submit scenario_sid None) scenario_begun).2
                   !! scenario_sid = Some _)
    by (vm_compute; reflexivity).
  destruct (session_history_kept _ _ _ _ _ scenario_begun_reachable Hs Hs')
    as (_ & _ & Ht & _ & Ha & _).
  - intros req E. discriminate E.
  - eexists _, _. split; [exact Hs|]. split; [exact Hs'|]. split; [exact Ht|exact Ha].
Defined.

(** X10. In a reachable state the questions recorded with a session's
    answers are the first questions of the bank, in the bank's order, as
    many as the cursor says. *)
Theorem recorded_questions_follow_bank w sid s :
  reachable w ->
  interview_sessions w !! sid = Some s ->
  map question (answers s) = take (current_question s) INTERVIEW_QUESTIONS.
Proof.
  intros Hr. revert sid s. induction Hr as [clk ent|r w Hr IH]; intros sid s' Hs'.
  - simpl in Hs'. rewrite lookup_empty in Hs'. discriminate.
  - pose proof (reachable_ok _ Hr) as Hok.
    destruct (handle_session r w sid s' Hok Hs')
      as [(d & resume & _ & _ & ->)|(s & Hs & [->|(a & q & _ & Hq & ->)])].
    + reflexivity.
    + apply (IH _ _ Hs).
    + cbn [answered answers current_question].
      rewrite map_app, (IH _ _ Hs). cbn [map question].
      symmetry. apply take_S_r, Hq.
Qed.

Lemma recorded_questions_follow_bank_witness :
  exists s, interview_sessions scenario_done !! scenario_sid = Some s /\
            map question (answers s) = INTERVIEW_QUESTIONS.
Proof.
  eassert (Hs : interview_sessions scenario_done !! scenario_sid = Some _)
    by (vm_compute; reflexivity).
  pose proof (recorded_questions_follow_bank _ _ _ scenario_done_reachable Hs) as H.
  eexists. split; [exact Hs|]. rewrite H. reflexivity.
Defined.

(** X11. In a reachable state the submit that answers a session's last
    question reports completion with total_questions and total_answers
    both 3. *)
Theorem completion_reports_all_answers w sid s a :
  reachable w ->
  interview_sessions w !! sid = Some s ->
  S (current_question s) = length INTERVIEW_QUESTIONS ->
  body_field "interview_complete" (handle (submit sid a) w).1 = Some (JBool true) /\
  body_field "total_questions" (handle (submit sid a) w).1 = Some (JInt 3) /\
  body_field "total_answers" (handle (submit sid a) w).1 = Some (JInt 3).
Proof.
  intros Hr Hs Hlast.
  destruct (ok_sessions _ (reachable_ok _ Hr) _ _ Hs) as [Hlen Hq _ _ _].
  destruct (lookup_lt_is_Some_2 INTERVIEW_QUESTIONS (current_question s)) as [q Hi]; [lia|].
  rewrite (submit_answer_accept sid a w s _ q Hs Hq Hi). cbn [fst].
  rewrite Hlast. cbv zeta.
  replace (length INTERVIEW_QUESTIONS <=? length INTERVIEW_QUESTIONS)%nat with true
    by reflexivity.
  split; [reflexivity|]. split; [reflexivity|].
  cbn [answered answers]. rewrite length_app, Hlen.
  replace (current_question s) with 2%nat by (simpl in Hlast; lia). reflexivity.
Qed.

Lemma completion_reports_all_answers_witness :
  body_field "total_answers"
    (handle (submit scenario_sid (Some "third"%string))
       (run [submit scenario_sid None; submit scenario_sid None] scenario_begun).2).1
  = Some (JInt 3).
Proof.
  eassert (Hs : interview_sessions
                  (run [submit scenario_sid None; submit scenario_sid None] scenario_begun).2
                  !! scenario_sid = Some _)
    by (vm_compute; reflexivity).
  apply (completion_reports_all_answers _ _ _ _
           (reachable_run _ _ scenario_begun_reachable) Hs).
  reflexivity.
Defined.

(** X12. In a reachable state no session's report closes with the
    needs-improvement sentence: the mean of metrics drawn from 70 to 95 is
    at least 70, so the sentence of a story that [generate_pdf_report]
    returns is the excellent, the good or the fair one. *)
Theorem reachable_assessment_never_lowest w sid s story :
  reachable w ->
  interview_sessions w !! sid = Some s ->
  (generate_pdf_report s w).1 = Returned story ->
  closing_sentence story = Some excellent \/
  closing_sentence story = Some good \/
  closing_sentence story = Some fair.
Proof.
  intros Hr Hs Hret.
  destruct (ok_metrics _ _ (ok_sessions _ (reachable_ok _ Hr) _ _ Hs)) as (Ha & Hp & Hc).
  rewrite (generate_pdf_report_returns s w story Hret).
  rewrite closing_sentence_report. unfold assessment_of.
  assert (H70 : Qle_bool 70 (avg_score (metrics s)) = true).
  { apply Qle_bool_iff. unfold avg_score, Qle. simpl. lia. }
  destruct (Qle_bool 90 _); [auto|]. destruct (Qle_bool 80 _); [auto|].
  rewrite H70. auto.
Qed.

Lemma reachable_assessment_never_lowest_witness :
  exists s story,
    interview_sessions scenario_done !! scenario_sid = Some s /\
    (generate_pdf_report s scenario_done).1 = Returned story /\
    closing_sentence story <> Some needs_improvement.
Proof.
  eassert (Hs : interview_sessions scenario_done !! scenario_sid = Some _)
    by (vm_compute; reflexivity).
  match type of Hs with
  | _ = Some ?s =>
    eassert (Hg : (generate_pdf_report s scenario_done).1 = Returned _)
      by (vm_compute; reflexivity)
  end.
  eexists _, _. split; [exact Hs|]. split; [exact Hg|].
  destruct (reachable_assessment_never_lowest _ _ _ _ scenario_done_reachable Hs Hg)
    as [H|[H|H]]; rewrite H; discriminate.
Defined.

Lemma world_ok_with_current c w : world_ok w -> world_ok (with_current_session_id c w).
Proof. apply world_ok_same; reflexivity. Qed.

(** X13. No handler reads the global [current_session_id]: on a reachable
    state, whatever value the global holds, a request gets the same
    response and leaves the same store and the same list objects. *)
Theorem current_session_id_never_read w c r :
  reachable w ->
  (handle r (with_current_session_id c w)).1 = (handle r w).1 /\
  interview_sessions (handle r (with_current_session_id c w)).2
    = interview_sessions (handle r w).2 /\
  heap (handle r (with_current_session_id c w)).2 = heap (handle r w).2.
Proof.
  intros Hr. pose proof (reachable_ok _ Hr) as Hok.
  pose proof (world_ok_with_current c w Hok) as Hok'.
  set (wc := with_current_session_id c w) in *.
  destruct r as [[[d|] resume]|[[[k|] a]|]|k|k|].
  - rewrite (start_interview_ok d resume w _ (ok_bank _ Hok)).
    rewrite (start_interview_ok d resume wc _ (ok_bank _ Hok')).
    repeat split; reflexivity.
  - repeat split; reflexivity.
  - change (SubmitAnswer _) with (submit k a).
    destruct (interview_sessions w !! k) as [s|] eqn:Hs.
    + assert (Hs' : interview_sessions wc !! k = Some s) by exact Hs.
      pose proof (ok_questions _ _ (ok_sessions _ Hok _ _ Hs)) as Hq.
      assert (Hq' : heap wc !! questions s = Some INTERVIEW_QUESTIONS) by exact Hq.
      destruct (INTERVIEW_QUESTIONS !! current_question s) as [q|] eqn:Hi.
      * rewrite (submit_answer_accept k a w s _ q Hs Hq Hi).
        rewrite (submit_answer_accept k a wc s _ q Hs' Hq' Hi).
        repeat split; reflexivity.
      * apply lookup_ge_None in Hi.
        rewrite (submit_answer_past_end k a w s _ Hs Hq Hi).
        rewrite (submit_answer_past_end k a wc s _ Hs' Hq' Hi).
        repeat split; reflexivity.
    + assert (Hs' : interview_sessions wc !! k = None) by exact Hs.
      rewrite (submit_answer_unknown k a w Hs), (submit_answer_unknown k a wc Hs').
      repeat split; reflexivity.
  - repeat split; reflexivity.
  - repeat split; reflexivity.
  - destruct k as [k|]; [|repeat split; reflexivity].
    destruct (interview_sessions w !! k) as [s|] eqn:Hs.
    + assert (Hs' : interview_sessions wc !! k = Some s) by exact Hs.
      pose proof (reachable_key_nonempty w k s Hr Hs) as Hne.
      rewrite (get_report_ok k w s Hs Hne), (get_report_ok k wc s Hs' Hne).
      rewrite (first_rejected_same w wc (report_story s) eq_refl).
      repeat split; reflexivity.
    + assert (Hs' : interview_sessions wc !! k = None) by exact Hs.
      rewrite (get_report_unknown k w Hs), (get_report_unknown k wc Hs').
      repeat split; reflexivity.
  - destruct k as [k|]; [|repeat split; reflexivity].
    destruct (interview_sessions w !! k) as [s|] eqn:Hs.
    + assert (Hs' : interview_sessions wc !! k = Some s) by exact Hs.
      pose proof (reachable_key_nonempty w k s Hr Hs) as Hne.
      pose proof (ok_questions _ _ (ok_sessions _ Hok _ _ Hs)) as Hq.
      assert (Hq' : heap wc !! questions s = Some INTERVIEW_QUESTIONS) by exact Hq.
      rewrite (get_metrics_ok k w s _ Hs Hq Hne), (get_metrics_ok k wc s _ Hs' Hq' Hne).
      repeat split; reflexivity.
    + assert (Hs' : interview_sessions wc !! k = None) by exact Hs.
      rewrite (get_metrics_unknown k w Hs), (get_metrics_unknown k wc Hs').
      repeat split; reflexivity.
  - repeat split; reflexivity.
Qed.

Lemma current_session_id_never_read_witness :
  (handle (submit scenario_sid None) (with_current_session_id None scenario_begun)).1
  = (handle (submit scenario_sid None) scenario_begun).1.
Proof.
  exact (proj1 (current_session_id_never_read scenario_begun None
                  (submit scenario_sid None) scenario_begun_reachable)).
Defined.

(** X14. In a reachable state the global [current_session_id], once set,
    names a session that is in the store. *)
Theorem current_session_id_is_stored w sid :
  reachable w ->
  current_session_id w = Some sid ->
  is_Some (interview_sessions w !! sid).
Proof.
  intros Hr. revert sid. induction Hr as [clk ent|r w Hr IH]; intros sid Hc.
  - discriminate.
  - destruct (handle_effect r w (reachable_ok _ Hr)) as [r| |d resume|k a s q Hs Hq].
    + apply IH, Hc.
    + apply IH, Hc.
    + cbn [current_session_id after_start] in Hc. injection Hc as <-.
      cbn [interview_sessions after_start]. rewrite lookup_insert_eq. eexists. reflexivity.
    + cbn [interview_sessions advanced]. rewrite lookup_insert.
      case_decide as Hk; [eexists; reflexivity|]. apply IH, Hc.
Qed.

Lemma current_session_id_is_stored_witness :
  is_Some (interview_sessions scenario_done !! scenario_sid).
Proof.
  apply (current_session_id_is_stored scenario_done scenario_sid scenario_done_reachable).
  vm_compute. reflexivity.
Defined.

(** X15. After an accepted submit, get_metrics for the same session
    reports the metrics the submit response carried and the cursor one
    past the old one. *)
Theorem get_metrics_after_submit w sid s a :
  reachable w ->
  interview_sessions w !! sid = Some s ->
  (current_question s < length INTERVIEW_QUESTIONS)%nat ->
  let w' := (handle (submit sid a) w).2 in
  body_field "metrics" (handle (GetMetrics (Some sid)) w').1
    = body_field "metrics" (handle (submit sid a) w).1 /\
  body_field "current_question" (handle (GetMetrics (Some sid)) w').1
    = Some (JInt (Z.of_nat (S (current_question s)))).
Proof.
  intros Hr Hs Hlt w'. subst w'.
  pose proof (ok_questions _ _ (ok_sessions _ (reachable_ok _ Hr) _ _ Hs)) as Hq.
  pose proof (reachable_key_nonempty w sid s Hr Hs) as Hne.
  destruct (lookup_lt_is_Some_2 INTERVIEW_QUESTIONS (current_question s) Hlt) as [q Hi].
  rewrite (submit_answer_accept sid a w s _ q Hs Hq Hi). cbn [fst snd].
  erewrite (get_metrics_ok sid _ (answered w s q (default ""%string a)) INTERVIEW_QUESTIONS);
    [|apply lookup_insert_eq|exact Hq|exact Hne].
  cbv zeta. split; [|reflexivity].
  destruct (Nat.leb_spec (length INTERVIEW_QUESTIONS) (S (current_question s)))
    as [Hle|Hgt]; [reflexivity|].
  destruct (lookup_lt_is_Some_2 INTERVIEW_QUESTIONS _ Hgt) as [nq Hn].
  rewrite Hn. reflexivity.
Qed.

Lemma get_metrics_after_submit_witness :
  body_field "current_question"
    (handle (GetMetrics (Some scenario_sid))
            (handle (submit scenario_sid None) scenario_begun).2).1
  = Some (JInt 1).
Proof.
  eassert (Hs : interview_sessions scenario_begun !! scenario_sid = Some _)
    by (vm_compute; reflexivity).
  refine (proj2 (get_metrics_after_submit scenario_begun scenario_sid _ None
                   scenario_begun_reachable Hs _)).
  simpl. lia.
Defined.




(** ** Lengths of the formatted fields *)

Lemma length_append (a b : string) :
  String.length (a +:+ b) = (String.length a + String.length b)%nat.
Proof. induction a as [|c a IH]; simpl; [|rewrite IH]; reflexivity. Qed.

Lemma append_assoc (a b c : string) : ((a +:+ b) +:+ c = a +:+ (b +:+ c))%string.
Proof.
  induction a as [|x a IH]; [reflexivity|].
  change (String x ((a +:+ b) +:+ c) = String x (a +:+ (b +:+ c))).
  rewrite IH. reflexivity.
Qed.

Lemma substring_prefix (p r : string) :
  substring 0 (String.length p) (p +:+ r) = p.
Proof.
  induction p as [|c p IH]; simpl.
  - destruct r; reflexivity.
  - rewrite IH. reflexivity.
Qed.

Lemma length_zeros k :
  String.length (String.concat "" (repeat "0"%string k)) = k.
Proof.
  induction k as [|k IH]; [reflexivity|].
  destruct k as [|k]; [reflexivity|].
  change (repeat "0"%string (S (S k))) with ("0"%string :: repeat "0"%string (S k)).
  change (String.concat "" ("0"%string :: repeat "0"%string (S k)))
    with ("0" +:+ "" +:+ String.concat "" (repeat "0"%string (S k)))%string.
  rewrite !length_append, IH. reflexivity.
Qed.

Lemma zfill_length width n :
  (String.length (Py.str_int (Z.of_nat n)) <= width)%nat ->
  String.length (Py.zfill width n) = width.
Proof.
  intros H. unfold Py.zfill. cbv zeta. rewrite length_append, length_zeros. lia.
Qed.

Lemma numeral_length_below (bound : Z) (width : nat) :
  forallb (fun n => String.length (Py.str_int (Z.of_nat n)) <=? width)%nat
          (seq 0 (Z.to_nat bound)) = true ->
  forall n, Z.of_nat n < bound ->
            (String.length (Py.str_int (Z.of_nat n)) <= width)%nat.
Proof.
  intros Hall n Hn. apply Nat.leb_le.
  apply (proj1 (forallb_forall _ _) Hall n). apply in_seq. lia.
Qed.

Lemma numeral_length_4 n :
  Z.of_nat n < 10000 -> (String.length (Py.str_int (Z.of_nat n)) <= 4)%nat.
Proof. apply numeral_length_below. vm_compute. reflexivity. Qed.

Lemma numeral_length_2 n :
  Z.of_nat n < 100 -> (String.length (Py.str_int (Z.of_nat n)) <= 2)%nat.
Proof. apply numeral_length_below. vm_compute. reflexivity. Qed.

Lemma suffix_length z :
  1000 <= z <= 9999 -> String.length (Py.str_int z) = 4%nat.
Proof.
  intros Hz.
  assert (Hall : forallb (fun n => String.length (Py.str_int (Z.of_nat n)) =? 4)%nat
                         (seq (Z.to_nat 1000) (Z.to_nat 9000)) = true)
    by (vm_compute; reflexivity).
  rewrite <- (Z2Nat.id z) by lia. apply Nat.eqb_eq.
  apply (proj1 (forallb_forall _ _) Hall). apply in_seq. lia.
Qed.

(** X17. The Interview Date line of a report shows the calendar date of
    the session's start: for a start time that is the ISO text of a
    datetime, the fifth flowable of a story that [generate_pdf_report]
    returns is the line with its first ten characters, YYYY-MM-DD. *)
Theorem report_shows_start_date s d w story :
  start_time s = Py.isoformat d ->
  valid_datetime d ->
  (generate_pdf_report s w).1 = Returned story ->
  story !! 4%nat =
    Some (Paragraph ("<b>Interview Date:</b> " +:+ isodate d) Normal).
Proof.
  intros Ht (Hy & Hm & Hd & _) Hret.
  rewrite (generate_pdf_report_returns s w story Hret).
  unfold report_story, report_head.
  cbn [app lookup list_lookup]. rewrite Ht. do 3 f_equal.
  unfold Py.isoformat.
  transitivity (substring 0 (String.length (isodate d))
                  (isodate d +:+ "T" +:+ Py.zfill 2 (Py.hour d) +:+ ":" +:+
                   Py.zfill 2 (Py.minute d) +:+ ":" +:+ Py.zfill 2 (Py.second d) +:+
                   (if Nat.eqb (Py.microsecond d) 0 then ""
                    else "." +:+ Py.zfill 6 (Py.microsecond d)))%string).
  - unfold isodate at 1. rewrite !length_append.
    rewrite (zfill_length 4), !(zfill_length 2)
      by (first [apply numeral_length_4|apply numeral_length_2]; lia).
    unfold isodate. f_equal.
    rewrite !append_assoc. reflexivity.
  - apply substring_prefix.
Qed.

Lemma report_shows_start_date_witness :
  exists s story,
    interview_sessions scenario_begun !! scenario_sid = Some s /\
    (generate_pdf_report s scenario_begun).1 = Returned story /\
    story !! 4%nat =
      Some (Paragraph "<b>Interview Date:</b> 2024-05-17" Normal).
Proof.
  eassert (Hs : interview_sessions scenario_begun !! scenario_sid = Some _)
    by (vm_compute; reflexivity).
  match type of Hs with
  | _ = Some ?s =>
    eassert (Hg : (generate_pdf_report s scenario_begun).1 = Returned _)
      by (vm_compute; reflexivity)
  end.
  eexists _, _. split; [exact Hs|]. split; [exact Hg|].
  pose proof (fun Ht Hv => report_shows_start_date _ (scenario_clock 1) _ _ Ht Hv Hg) as H.
  rewrite H; [reflexivity|reflexivity|unfold valid_datetime; simpl; lia].
Defined.

(** X18. A new session identifier has 28 characters, "session_", the
    fourteen digits of the date and time with an underscore between them,
    an underscore and four digits, when the clock shows a datetime of the
    year 1000 or later. *)
Theorem session_id_length w :
  valid_datetime (clock w (clock_reads w)) ->
  1000 <= Z.of_nat (Py.year (clock w (clock_reads w))) ->
  String.length (new_session_id w) = 28%nat /\
  exists stamp suffix,
    new_session_id w = ("session_" +:+ stamp +:+ "_" +:+ suffix)%string /\
    String.length stamp = 15%nat /\ String.length suffix = 4%nat.
Proof.
  intros (Hy & Hm & Hd & Hh & Hmi & Hs & _) _.
  assert (Hstamp : String.length (Py.strftime_id (clock w (clock_reads w))) = 15%nat).
  { unfold Py.strftime_id. rewrite !length_append.
    rewrite (zfill_length 4), !(zfill_length 2)
      by (first [apply numeral_length_4|apply numeral_length_2]; lia).
    reflexivity. }
  assert (Hsuffix : String.length (Py.str_int (1000 + entropy w (draws w) mod 9000)) = 4%nat).
  { apply suffix_length.
    pose proof (Z.mod_pos_bound (entropy w (draws w)) 9000). lia. }
  split.
  - unfold new_session_id. rewrite !length_append, Hstamp, Hsuffix. reflexivity.
  - eexists _, _. split; [reflexivity|]. split; [exact Hstamp|exact Hsuffix].
Qed.

Lemma session_id_length_witness :
  String.length (new_session_id (initial scenario_clock scenario_entropy scenario_markup)) = 28%nat.
Proof.
  apply (session_id_length (initial scenario_clock scenario_entropy scenario_markup)).
  - unfold valid_datetime. simpl. lia.
  - simpl. lia.
Defined.

(** X19. Identifiers are not checked for reuse: when the identifier a start
    makes is already a key of the store, the start keeps the set of keys
    and puts a fresh record in place of the stored one, with no answers,
    cursor 0 and a new questions list. *)
Theorem start_replaces_session_with_same_id w d resume s :
  reachable w ->
  interview_sessions w !! new_session_id w = Some s ->
  let w' := (handle (StartInterview {| start_json := Some d;
                                       start_resume := resume |}) w).2 in
  dom (interview_sessions w') = dom (interview_sessions w) /\
  exists s',
    interview_sessions w' !! new_session_id w = Some s' /\
    answers s' = [] /\ current_question s' = 0%nat /\
    questions s' <> questions s.
Proof.
  intros Hr Hs w'. subst w'. pose proof (reachable_ok _ Hr) as Hok.
  rewrite (start_interview_ok d resume w _ (ok_bank _ Hok)).
  cbn [snd interview_sessions after_start]. split.
  - apply dom_insert_lookup_L. rewrite Hs. eexists. reflexivity.
  - exists (created w d resume). split; [apply lookup_insert_eq|].
    split; [reflexivity|]. split; [reflexivity|].
    cbn [created questions]. intros E.
    pose proof (ok_questions _ _ (ok_sessions _ Hok _ _ Hs)) as Hq.
    rewrite <- E, fresh_loc_unused in Hq. discriminate.
Qed.

Lemma start_replaces_session_with_same_id_witness :
  let w := (run [scenario_start; submit scenario_sid (Some "lost"%string)]
                (initial still_clock zero_entropy scenario_markup)).2 in
  exists s s',
    interview_sessions w !! scenario_sid = Some s /\ length (answers s) = 1%nat /\
    interview_sessions (handle scenario_start w).2 !! scenario_sid = Some s' /\
    answers s' = [].
Proof.
  intros w.
  eassert (Hs : interview_sessions w !! new_session_id w = Some _)
    by (vm_compute; reflexivity).
  destruct (start_replaces_session_with_same_id w
              {| body_job_role := Some "Backend Engineer"%string |} None _
              (reachable_run _ _ (reachable_initial _ _ _)) Hs)
    as (_ & s' & Hs' & Ha & _).
  eexists _, s'. split; [exact Hs|]. split; [reflexivity|]. split; [exact Hs'|exact Ha].
Defined.

(** X20. The record a start stores keeps the request's fields: the job
    role, or "Unknown Role" when the body has none; the uploaded file's
    name, or "No file uploaded" when there is no file or its name is empty;
    and as start time the ISO text of the clock reading that follows the one
    used for the identifier. *)
Theorem start_interview_stores_request_fields w d resume :
  reachable w ->
  exists s,
    interview_sessions
      (handle (StartInterview {| start_json := Some d;
                                 start_resume := resume |}) w).2
      !! new_session_id w = Some s /\
    job_role s = match body_job_role d with
                 | Some role => role
                 | None => "Unknown Role"%string
                 end /\
    resume_filename s = match resume with
                        | Some (String c name) => String c name
                        | Some EmptyString | None => "No file uploaded"%string
                        end /\
    start_time s = Py.isoformat (clock w (S (clock_reads w))).
Proof.
  intros Hr.
  rewrite (start_interview_ok d resume w _ (ok_bank _ (reachable_ok _ Hr))).
  exists (created w d resume). split; [apply lookup_insert_eq|].
  split; [destruct d as [[role|]]; reflexivity|].
  split; [destruct resume as [[|c name]|]; reflexivity|reflexivity].
Qed.

Lemma start_interview_stores_request_fields_witness :
  exists s,
    interview_sessions
      (handle (StartInterview {| start_json := Some {| body_job_role := None |};
                                 start_resume := Some ""%string |})
              (initial scenario_clock scenario_entropy scenario_markup)).2
      !! scenario_sid = Some s /\
    job_role s = "Unknown Role"%string /\
    resume_filename s = "No file uploaded"%string.
Proof.
  destruct (start_interview_stores_request_fields
              (initial scenario_clock scenario_entropy scenario_markup)
              {| body_job_role := None |} (Some ""%string) (reachable_initial _ _ _))
    as (s & Hs & Hj & Hf & _).
  exists s. split; [exact Hs|]. split; [exact Hj|exact Hf].
Defined.
